(** * Beacon-chain consensus core: chain orchestrator and epoch rewards

    A shallow embedding of

    - [packages/state-transition/src/epoch/processRewardsAndPenalties.ts]
      (module [Epoch]),
    - the attestation factory [assembleAttestation] (module
      [AttestationFactory]),
    - the [BeaconChain] class of the chain module (module [Chain]),

    together with the properties the specification states about them.

    Numbers.  Slots, epochs, gwei amounts and validator indices are
    JavaScript numbers holding integers.  Where the source adds or
    subtracts them (the slot counter of the attestation factory, the
    balances of the rewards step) they are embedded with the rounding of
    binary64, see module [Number]; elsewhere as the [Z] they equal (indices
    into arrays as [nat]).  Roots are 32-byte [Buffer]s, embedded as the
    list of their byte values. *)

From stdpp Require Import gmap list numbers strings.

Local Open Scope Z_scope.

(** ** Outcomes of calls that may throw *)

(** A JavaScript call either returns a value or throws.  Mutations made
    before a throw are kept, so the effectful code below always returns
    the final store next to the outcome. *)
Inductive Outcome (E A : Type) : Type :=
| Returned (a : A)
| Thrown (e : E).
Arguments Returned {E A} a.
Arguments Thrown {E A} e.

Definition isThrown {E A} (o : Outcome E A) : bool :=
  match o with Thrown _ => true | Returned _ => false end.

(** * JavaScript numbers *)

(** Every [number] of the source is a binary64 value.  Slots, epochs and
    gwei amounts are integers, and sums and differences of integers are
    integers, so a number is embedded as the integer it equals, as one of
    the two infinities or as [NaN]; the sign of zero, which nothing below
    can tell, is left out.  Arithmetic rounds as binary64 does: to the
    nearest number of 53 significant bits, ties to the even one. *)

Module Number.

Inductive t : Type :=
| Finite (z : Z)
| Infinity (negative : bool)
| NaN.

#[global] Instance t_eq_dec : EqDecision t.
Proof. solve_decision. Defined.

(** The binary64 number nearest to the integer [z], before overflow is
    looked at.  Up to [2^53] every integer is a number; beyond, the numbers
    are the multiples of [ulp], the power of two that leaves 53 bits. *)
Definition round (z : Z) : Z :=
  let a := Z.abs z in
  if bool_decide (a <= 2 ^ 53) then z
  else
    let ulp := 2 ^ (Z.log2 a - 52) in
    let q := a `div` ulp in
    let r := a `mod` ulp in
    let q' :=
      if bool_decide (2 * r < ulp) then q
      else if bool_decide (ulp < 2 * r) then q + 1
      else if Z.even q then q
      else q + 1 in
    Z.sgn z * (q' * ulp).

(** The number an exact integer result becomes: rounded, and an infinity
    from [2^1024] on. *)
Definition ofInteger (z : Z) : t :=
  let r := round z in
  if bool_decide (2 ^ 1024 <= Z.abs r) then Infinity (bool_decide (z < 0))
  else Finite r.

(** [x + y]. *)
Definition add (x y : t) : t :=
  match x, y with
  | NaN, _ | _, NaN => NaN
  | Infinity s, Infinity s' => if decide (s = s') then Infinity s else NaN
  | Infinity s, Finite _ | Finite _, Infinity s => Infinity s
  | Finite a, Finite b => ofInteger (a + b)
  end.

(** [-x]. *)
Definition neg (x : t) : t :=
  match x with
  | Finite a => Finite (- a)
  | Infinity s => Infinity (negb s)
  | NaN => NaN
  end.

(** [x - y]. *)
Definition sub (x y : t) : t := add x (neg y).

(** [x < y]; a comparison with [NaN] is false. *)
Definition ltb (x y : t) : bool :=
  match x, y with
  | NaN, _ | _, NaN => false
  | Finite a, Finite b => bool_decide (a < b)
  | Infinity s, Infinity s' => s && negb s'
  | Infinity s, Finite _ => s
  | Finite _, Infinity s => negb s
  end.

(** [Math.max(x, y)]. *)
Definition max (x y : t) : t :=
  match x, y with
  | NaN, _ | _, NaN => NaN
  | _, _ => if ltb x y then y else x
  end.

(** An operand that may be [undefined]: in arithmetic [undefined] is
    [NaN]. *)
Definition ofOperand (x : option t) : t := default NaN x.

(** [array[i] = v] on an array of numbers.  A write past the end makes the
    array longer; the entries it skips are holes, which read as [undefined]
    and thus count as [NaN] in the arithmetic here. *)
Definition arraySet (i : nat) (v : t) (array : list t) : list t :=
  if decide (i < length array)%nat then <[i := v]> array
  else array ++ replicate (i - length array) NaN ++ [v].

End Number.

(** * Epoch processing: rewards and penalties *)

Module Epoch.

(** [state.balances] is a tree-backed view.  The operations performed on
    it are recorded so that a bulk rebuild can be told from per-leaf
    writes ([state.balances.set(i, v)], which the source avoids). *)
Inductive TreeOp : Type :=
| ReadAll                            (* state.balances.getAll() *)
| SetLeaf (i : nat) (v : Number.t)   (* state.balances.set(i, v) *)
| Rebuild (leaves : list Number.t).  (* state.balances = Balances.toViewDU(leaves) *)

Definition isRebuild (op : TreeOp) : bool :=
  match op with Rebuild _ => true | _ => false end.

Definition isSetLeaf (op : TreeOp) : bool :=
  match op with SetLeaf _ _ => true | _ => false end.

(** The part of [CachedBeaconStateAllForks] the function touches. *)
Record CachedBeaconStateAllForks : Type := mkState {
  slot : Z;
  balances : list Number.t      (* the leaves of the balances view *)
}.

(** The part of [EpochTransitionCache] the function touches;
    [cache.balances] is unset until some step fills it. *)
Record EpochTransitionCache : Type := mkCache {
  currentEpoch : Z;
  cacheBalances : option (list Number.t)
}.

(** Modelled from the spec: [increaseBalanceWithVal] of [../util] is not
    part of the sources at hand; the specification has rewards "applied to
    balances", that is added. *)
Definition increaseBalanceWithVal (balance delta : Number.t) : Number.t :=
  Number.add balance delta.

(** Modelled from the spec: [decreaseBalanceWithVal] of [../util] is not
    part of the sources at hand; the specification has balances "updated
    with saturating arithmetic at zero (no underflow)". *)
Definition decreaseBalanceWithVal (balance delta : Number.t) : Number.t :=
  Number.max (Number.Finite 0) (Number.sub balance delta).

Section WithParams.

  (** [GENESIS_EPOCH] and the [ForkSeq] enumeration come from
      [@lodestar/params]; the two delta computations from sibling files. *)
Variable GENESIS_EPOCH : Z.
Context {ForkSeq : Type} `{EqDecision ForkSeq}.
Variable phase0 : ForkSeq.
Variable getForkSeq : Z -> ForkSeq.
Variable getAttestationDeltas :
    CachedBeaconStateAllForks -> EpochTransitionCache ->
    list Number.t * list Number.t.
Variable getRewardsAndPenaltiesAltair :
    CachedBeaconStateAllForks -> EpochTransitionCache ->
    list Number.t * list Number.t.

Definition getRewardsAndPenalties
      (state : CachedBeaconStateAllForks)
      (epochTransitionCache : EpochTransitionCache)
    : list Number.t * list Number.t :=
    let fork := getForkSeq (slot state) in
    if decide (fork = phase0)
    then getAttestationDeltas state epochTransitionCache
    else getRewardsAndPenaltiesAltair state epochTransitionCache.

  (** One iteration of the [for] loop at index [i].  A read past the end
      of [balances], [rewards] or [penalties] yields [undefined] and the
      arithmetic goes on with [NaN]; [slashingPenalties[i] ?? 0] has a
      default.  The sum of the two penalties is made here, as a number. *)
Definition loopBody (rewards penalties slashingPenalties : list Number.t)
      (balances : list Number.t) (i : nat) : list Number.t :=
    let balance := Number.ofOperand (balances !! i) in
    let balance :=
      increaseBalanceWithVal balance (Number.ofOperand (rewards !! i)) in
    let balance :=
      decreaseBalanceWithVal balance
        (Number.add (Number.ofOperand (penalties !! i))
                    (default (Number.Finite 0) (slashingPenalties !! i))) in
    Number.arraySet i balance balances.

  (** [for (let i = ..; i < len; i++)] with [n] iterations left. *)
Fixpoint loopFrom (rewards penalties slashingPenalties : list Number.t)
      (i n : nat) (balances : list Number.t) : list Number.t :=
    match n with
    | O => balances
    | S n' =>
        loopFrom rewards penalties slashingPenalties (S i) n'
          (loopBody rewards penalties slashingPenalties balances i)
    end.

  (** The function returns [void]; the embedding returns the state and the
      cache after the call and the operations made on the balances tree. *)
Definition processRewardsAndPenalties
      (state : CachedBeaconStateAllForks) (cache : EpochTransitionCache)
      (slashingPenalties : list Number.t)
    : CachedBeaconStateAllForks * EpochTransitionCache * list TreeOp :=
    if decide (currentEpoch cache = GENESIS_EPOCH) then
      (state, cache, [])
    else
      let '(rewards, penalties) := getRewardsAndPenalties state cache in
      let balances0 := balances state in
      let balances' :=
        loopFrom rewards penalties slashingPenalties 0 (length rewards)
          balances0 in
      (mkState (slot state) balances',
       mkCache (currentEpoch cache) (Some balances'),
       [ReadAll; Rebuild balances']).

End WithParams.

End Epoch.

(** * Types of the chain module *)

(** The containers of [../types], with the fields the chain code reads.
    Each record lives in a module of its name so that [state.slot] and
    [block.slot] keep their names. *)

Abbreviation Root := (list Z) (only parsing).

(** [Buffer.alloc(32)]. *)
Definition ZERO_ROOT : Root := replicate 32 0.

Module Checkpoint.
Record t : Type := mk { epoch : Z; root : Root }.
End Checkpoint.

Module Validator.
Record t : Type := mk { effectiveBalance : Z; slashed : bool }.
End Validator.

Module Eth1Data.
Record t : Type := mk { depositCount : Z }.
End Eth1Data.

Module BeaconState.
Record t : Type := mk {
    slot : Z;
    genesisTime : Z;
    validators : list Validator.t;
    balances : list Z;
    currentJustifiedCheckpoint : Checkpoint.t;
    finalizedCheckpoint : Checkpoint.t;
    eth1DepositIndex : Z;
    eth1Data : Eth1Data.t
  }.

  (** [state.slot = v]. *)
Definition setSlot (v : Z) (s : t) : t :=
    mk v (genesisTime s) (validators s) (balances s)
       (currentJustifiedCheckpoint s) (finalizedCheckpoint s)
       (eth1DepositIndex s) (eth1Data s).
End BeaconState.

Module BeaconBlock.
  (** [body] stands for the serialized block body, which the chain code
      hands on without reading. *)
Record t : Type := mk {
    slot : Z;
    parentRoot : Root;
    stateRoot : Root;
    body : list Z
  }.

  (** [block.stateRoot = v]. *)
Definition setStateRoot (v : Root) (b : t) : t :=
    mk (slot b) (parentRoot b) v (body b).
End BeaconBlock.

Module AttestationData.
Record t : Type := mk {
    beaconBlockRoot : Root;
    source : Checkpoint.t;
    target : Checkpoint.t
  }.
End AttestationData.

Module Attestation.
Record t : Type := mk {
    aggregationBits : list bool;
    data : AttestationData.t;
    signature : list Z
  }.
End Attestation.

Module IndexedAttestation.
  (** [signature] is optional: the factory leaves it [undefined]. *)
Record t : Type := mk {
    custodyBit0Indices : list nat;
    custodyBit1Indices : list nat;
    data : AttestationData.t;
    signature : option (list Z)
  }.
End IndexedAttestation.

Module Deposit.
Record t : Type := mk { data : list Z }.
End Deposit.

(** [config.params]. *)
Record IBeaconConfig : Type := mkConfig {
  SECONDS_PER_SLOT : Z;
  SLOTS_PER_EPOCH : Z
}.

(** What a call can throw. *)
Inductive Error : Type :=
| AssertionError        (* assert(false) *)
| TypeError             (* property access on null or undefined *)
| EngineError           (* thrown by stateTransition *)
| OpPoolError.          (* thrown by the operation pool *)

#[global] Instance Error_eq_dec : EqDecision Error.
Proof. solve_decision. Defined.

(** * The attestation factory *)

Module AttestationFactory.

Section WithParams.

  (** [BeaconDB] of [db/api] and [assembleAttestationData] of [./data] are
      not part of the sources at hand; the latter reads the state it is
      given and may reject. *)
Context {BeaconDB Shard : Type}.
Variable assembleAttestationData :
    IBeaconConfig -> BeaconDB -> BeaconState.t -> BeaconBlock.t -> Shard ->
    Outcome Error AttestationData.t.

  (** [while (state.slot < slot) { state.slot++; }].  [state.slot++] adds
      one as numbers do: beyond [2^53] the sum is rounded, it may be the
      slot the loop started from, and the loop then never ends.  [fuel]
      bounds the number of iterations; [None] is a loop that is still
      running when the fuel is spent. *)
Fixpoint advanceSlot (fuel : nat) (state : BeaconState.t) (slot : Z)
    : option BeaconState.t :=
    if bool_decide (BeaconState.slot state < slot) then
      match fuel with
      | O => None
      | S fuel' =>
          advanceSlot fuel'
            (BeaconState.setSlot (Number.round (BeaconState.slot state + 1))
               state)
            slot
      end
    else Some state.

  (** The state is passed by reference: the embedding returns it next to
      the outcome of the promise.  [None]: the call has not come back
      within [fuel] iterations of its loop. *)
Definition assembleAttestation (fuel : nat)
      (config : IBeaconConfig) (db : BeaconDB) (state : BeaconState.t)
      (headBlock : BeaconBlock.t) (slot : Z) (shard : Shard)
    : option (Outcome Error IndexedAttestation.t * BeaconState.t) :=
    state ← advanceSlot fuel state slot;
    Some
      match assembleAttestationData config db state headBlock shard with
      | Returned data =>
          (Returned (IndexedAttestation.mk [] [] data None), state)
      | Thrown e => (Thrown e, state)
      end.

End WithParams.

End AttestationFactory.

(** * The chain orchestrator *)

Module Chain.

(** ** The persistent store *)

(** [ProgressiveMerkleTree] of [../util/merkleTree], as the leaves added to
    it, in order. *)
Abbreviation MerkleTree := (list (Z * Root)) (only parsing).

(** Modelled from the spec: the implementation of [IBeaconDb] is not part
    of the sources at hand.  The specification describes a typed key/value
    store with the key spaces [block/<root>], [state/<root>],
    [checkpoint/{justified,finalized}], [head] and [badblock/<root>]; each
    setter below writes its arguments under its key and each getter reads
    the key back, answering [null] ([None]) for a key never written. *)
Record IBeaconDb : Type := mkDb {
  blocks : gmap (list Z) BeaconBlock.t;
  states : gmap (list Z) BeaconState.t;
  badBlockRoots : gset (list Z);
  chainHead : option (Root * Root * BeaconBlock.t);
  latestStateRoot : option Root;
  justifiedBlock : option (Root * BeaconBlock.t);
  finalizedBlock : option (Root * BeaconBlock.t);
  justifiedState : option (Root * option BeaconState.t);
  finalizedState : option (Root * option BeaconState.t);
  merkleTrees : gmap Z (list (Z * list Z));
  deposits : list Deposit.t
}.

Definition emptyDb : IBeaconDb :=
  mkDb ∅ ∅ ∅ None None None None None None ∅ [].

Definition setBlock (blockRoot : Root) (block : BeaconBlock.t)
    (d : IBeaconDb) : IBeaconDb :=
  mkDb (<[blockRoot := block]> (blocks d)) (states d) (badBlockRoots d)
       (chainHead d) (latestStateRoot d) (justifiedBlock d) (finalizedBlock d)
       (justifiedState d) (finalizedState d) (merkleTrees d) (deposits d).

Definition setState (stateRoot : Root) (state : BeaconState.t)
    (d : IBeaconDb) : IBeaconDb :=
  mkDb (blocks d) (<[stateRoot := state]> (states d)) (badBlockRoots d)
       (chainHead d) (latestStateRoot d) (justifiedBlock d) (finalizedBlock d)
       (justifiedState d) (finalizedState d) (merkleTrees d) (deposits d).

Definition setBadBlockRoot (blockRoot : Root) (d : IBeaconDb) : IBeaconDb :=
  mkDb (blocks d) (states d) ({[blockRoot]} ∪ badBlockRoots d)
       (chainHead d) (latestStateRoot d) (justifiedBlock d) (finalizedBlock d)
       (justifiedState d) (finalizedState d) (merkleTrees d) (deposits d).

Definition setChainHeadRoots (blockRoot stateRoot : Root)
    (block : BeaconBlock.t) (d : IBeaconDb) : IBeaconDb :=
  mkDb (blocks d) (states d) (badBlockRoots d)
       (Some (blockRoot, stateRoot, block)) (latestStateRoot d)
       (justifiedBlock d) (finalizedBlock d)
       (justifiedState d) (finalizedState d) (merkleTrees d) (deposits d).

Definition setLatestStateRoot (stateRoot : Root) (d : IBeaconDb) : IBeaconDb :=
  mkDb (blocks d) (states d) (badBlockRoots d)
       (chainHead d) (Some stateRoot) (justifiedBlock d) (finalizedBlock d)
       (justifiedState d) (finalizedState d) (merkleTrees d) (deposits d).

Definition setJustifiedBlockRoot (blockRoot : Root) (block : BeaconBlock.t)
    (d : IBeaconDb) : IBeaconDb :=
  mkDb (blocks d) (states d) (badBlockRoots d)
       (chainHead d) (latestStateRoot d) (Some (blockRoot, block))
       (finalizedBlock d)
       (justifiedState d) (finalizedState d) (merkleTrees d) (deposits d).

Definition setFinalizedBlockRoot (blockRoot : Root) (block : BeaconBlock.t)
    (d : IBeaconDb) : IBeaconDb :=
  mkDb (blocks d) (states d) (badBlockRoots d)
       (chainHead d) (latestStateRoot d) (justifiedBlock d)
       (Some (blockRoot, block))
       (justifiedState d) (finalizedState d) (merkleTrees d) (deposits d).

Definition setJustifiedStateRoot (stateRoot : Root)
    (state : option BeaconState.t) (d : IBeaconDb) : IBeaconDb :=
  mkDb (blocks d) (states d) (badBlockRoots d)
       (chainHead d) (latestStateRoot d) (justifiedBlock d) (finalizedBlock d)
       (Some (stateRoot, state)) (finalizedState d)
       (merkleTrees d) (deposits d).

Definition setFinalizedStateRoot (stateRoot : Root)
    (state : option BeaconState.t) (d : IBeaconDb) : IBeaconDb :=
  mkDb (blocks d) (states d) (badBlockRoots d)
       (chainHead d) (latestStateRoot d) (justifiedBlock d) (finalizedBlock d)
       (justifiedState d) (Some (stateRoot, state))
       (merkleTrees d) (deposits d).

Definition setMerkleTree (index : Z) (merkleTree : MerkleTree)
    (d : IBeaconDb) : IBeaconDb :=
  mkDb (blocks d) (states d) (badBlockRoots d)
       (chainHead d) (latestStateRoot d) (justifiedBlock d) (finalizedBlock d)
       (justifiedState d) (finalizedState d)
       (<[index := merkleTree]> (merkleTrees d)) (deposits d).

Definition hasBlock (blockRoot : Root) (d : IBeaconDb) : bool :=
  bool_decide (is_Some (blocks d !! blockRoot)).

Definition getBlock (blockRoot : Root) (d : IBeaconDb) : option BeaconBlock.t :=
  blocks d !! blockRoot.

Definition getState (stateRoot : Root) (d : IBeaconDb) : option BeaconState.t :=
  states d !! stateRoot.

Definition getChainHeadRoot (d : IBeaconDb) : option Root :=
  (λ h, h.1.1) <$> chainHead d.

(** ** Fork choice and operation pool *)

(** The [LMDGHOST] interface of [./forkChoice].  The weight handed to
    [addAttestation] is [balances[i]], which is [undefined] ([None]) for an
    index past the end of the balances. *)
Class LMDGHOST (FC : Type) : Type := {
  addBlock : Z -> Root -> Root -> FC -> FC;
  addAttestation : Root -> nat -> option Z -> FC -> FC;
  setJustified : Root -> FC -> FC;
  setFinalized : Root -> FC -> FC;
  head : FC -> Root
}.

(** The one method of [OpPool] the chain calls; it may throw. *)
Class OpPoolApi (OP : Type) : Type := {
  processBlockOperations : BeaconBlock.t -> OP -> Outcome Error OP
}.

(** What the chain emits to its listeners. *)
Inductive Event : Type :=
| processedAttestation (attestation : Attestation.t)
| processedBlock (block : BeaconBlock.t).

(** ** The chain object *)

(** The mutable fields of [BeaconChain], what it emitted, the block roots
    passed to [logger.warn] and the blocks handed to [stateTransition], in
    order of the calls. *)
Record BeaconChain (FC OP : Type) : Type := mkChain {
  latestState : option BeaconState.t;
  forkChoice : FC;
  db : IBeaconDb;
  opPool : OP;
  emitted : list Event;
  warned : list Root;
  transitioned : list BeaconBlock.t
}.
Arguments mkChain {FC OP}.
Arguments latestState {FC OP}.
Arguments forkChoice {FC OP}.
Arguments db {FC OP}.
Arguments opPool {FC OP}.
Arguments emitted {FC OP}.
Arguments warned {FC OP}.
Arguments transitioned {FC OP}.

(** Methods: the chain object before the call to the outcome of the call
    and the chain object after it. *)
Definition Method (FC OP A : Type) : Type :=
  BeaconChain FC OP -> Outcome Error A * BeaconChain FC OP.

Section Methods.

Context {FC OP : Type} `{!LMDGHOST FC} `{!OpPoolApi OP}.

  (** [this.config]; [GENESIS_SLOT] of [../constants]; [hashTreeRoot] of
      [@chainsafe/ssz] at the three types it is used at; [stateTransition]
      of [./stateTransition] with its fourth argument; the committee lookup
      behind [getAttestingIndices]; [processSortedDeposits] of
      [../util/deposits], as the deposits its callback is run on;
      [getEmptyBlock()] of [./genesis/genesis]. *)
Variable config : IBeaconConfig.
Variable GENESIS_SLOT : Z.
Variable hashTreeRootBlock : BeaconBlock.t -> Root.
Variable hashTreeRootState : BeaconState.t -> Root.
Variable hashTreeRootDepositData : list Z -> Root.
Variable stateTransition :
    IBeaconConfig -> BeaconState.t -> BeaconBlock.t -> bool ->
    Outcome Error BeaconState.t.
Variable getCommittee :
    IBeaconConfig -> BeaconState.t -> AttestationData.t -> list nat.
Variable processSortedDeposits :
    IBeaconConfig -> list Deposit.t -> Z -> Z -> list Deposit.t.
Variable getEmptyBlock : BeaconBlock.t.

Abbreviation M := (Method FC OP).

Definition ret {A} (a : A) : M A := λ c, (Returned a, c).

Definition throw {A} (e : Error) : M A := λ c, (Thrown e, c).

Definition bind {A B} (m : M A) (k : A -> M B) : M B :=
    λ c, match m c with
         | (Returned a, c') => k a c'
         | (Thrown e, c') => (Thrown e, c')
         end.

#[local] Instance Method_ret : MRet (Method FC OP) := @ret.
#[local] Instance Method_bind : MBind (Method FC OP) :=
    λ A B k m, bind m k.

Definition gets {A} (f : BeaconChain FC OP -> A) : M A :=
    λ c, (Returned (f c), c).

  (** A write to [this.db]. *)
Definition onDb (f : IBeaconDb -> IBeaconDb) : M unit :=
    λ c, (Returned tt,
          mkChain (latestState c) (forkChoice c) (f (db c)) (opPool c)
                  (emitted c) (warned c) (transitioned c)).

  (** A call on [this.forkChoice]. *)
Definition onForkChoice (f : FC -> FC) : M unit :=
    λ c, (Returned tt,
          mkChain (latestState c) (f (forkChoice c)) (db c) (opPool c)
                  (emitted c) (warned c) (transitioned c)).

  (** [this.latestState = state]. *)
Definition setLatestState (state : BeaconState.t) : M unit :=
    λ c, (Returned tt,
          mkChain (Some state) (forkChoice c) (db c) (opPool c)
                  (emitted c) (warned c) (transitioned c)).

  (** [this.emit(name, payload)]. *)
Definition emit (e : Event) : M unit :=
    λ c, (Returned tt,
          mkChain (latestState c) (forkChoice c) (db c) (opPool c)
                  (emitted c ++ [e]) (warned c) (transitioned c)).

  (** [this.logger.warn(`Found bad block, block root: ...`)]. *)
Definition warn (blockRoot : Root) : M unit :=
    λ c, (Returned tt,
          mkChain (latestState c) (forkChoice c) (db c) (opPool c)
                  (emitted c) (warned c ++ [blockRoot]) (transitioned c)).

  (** The call [stateTransition(this.config, state, block, true)], noted
      in [transitioned]. *)
Definition callStateTransition (state : BeaconState.t)
      (block : BeaconBlock.t) : M (Outcome Error BeaconState.t) :=
    λ c, (Returned (stateTransition config state block true),
          mkChain (latestState c) (forkChoice c) (db c) (opPool c)
                  (emitted c) (warned c) (transitioned c ++ [block])).

  (** [await this.opPool.processBlockOperations(block)]. *)
Definition callProcessBlockOperations (block : BeaconBlock.t) : M unit :=
    λ c, match processBlockOperations block (opPool c) with
         | Returned pool' =>
             (Returned tt,
              mkChain (latestState c) (forkChoice c) (db c) pool'
                      (emitted c) (warned c) (transitioned c))
         | Thrown e => (Thrown e, c)
         end.

  (** [x.field] for an [x] that may be [null]. *)
Definition deref {A} (x : option A) : M A :=
    match x with
    | Some a => ret a
    | None => throw TypeError
    end.

  (** Modelled from the spec: [computeEpochOfSlot] of
      [./stateTransition/util] is not part of the sources at hand; the
      specification has "Epoch = slot / SLOTS_PER_EPOCH". *)
Definition computeEpochOfSlot (config : IBeaconConfig) (slot : Z) : Z :=
    slot `div` SLOTS_PER_EPOCH config.

  (** Modelled from the spec: [getAttestingIndices] of
      [./stateTransition/util] is not part of the sources at hand; the
      specification has the aggregation bit-field range over the committee
      and "each included validator" vote: the members of the committee
      whose bit is set. *)
Definition getAttestingIndices (config : IBeaconConfig)
      (state : BeaconState.t) (data : AttestationData.t)
      (bits : list bool) : list nat :=
    (filter (λ p, p.2 = true) (zip (getCommittee config state data) bits)).*1.

Definition receiveAttestation (attestation : Attestation.t) : M unit :=
    state ← gets latestState ≫= deref;
    let validators :=
      getAttestingIndices config state (Attestation.data attestation)
        (Attestation.aggregationBits attestation) in
    let balances :=
      (λ index, BeaconState.balances state !! index) <$> validators in
    onForkChoice (λ fc,
      foldl (λ fc vb,
               addAttestation
                 (AttestationData.beaconBlockRoot (Attestation.data attestation))
                 vb.1 vb.2 fc)
            fc (zip validators balances));;
    emit (processedAttestation attestation).

  (** [now] is the reading of [Date.now()], in milliseconds. *)
Definition isValidBlock (state : option BeaconState.t)
      (block : BeaconBlock.t) (now : Z) : M bool :=
    hasParent ← gets (λ c, hasBlock (BeaconBlock.parentRoot block) (db c));
    if negb hasParent then ret false
    else
      state ← deref state;
      let stateSlotTime :=
        BeaconState.genesisTime state
        + (BeaconBlock.slot block - GENESIS_SLOT) * SECONDS_PER_SLOT config in
      if bool_decide (now `div` 1000 < stateSlotTime) then ret false
      else ret true.

  (** The promise is not awaited by its caller: when [db.getMerkleTree]
      answers [null] the rejection is lost and nothing is written.  Its one
      write is to the Merkle-tree key, which nothing else in
      [runStateTransition] reads or writes, so it is placed where it is
      started. *)
Definition updateDepositMerkleTree (newState : BeaconState.t) : M unit :=
    onDb (λ d,
      let index := BeaconState.eth1DepositIndex newState in
      let count := Eth1Data.depositCount (BeaconState.eth1Data newState) in
      match merkleTrees d !! (index - count) with
      | None => d
      | Some merkleTree =>
          let added :=
            imap (λ i deposit,
                    (Z.of_nat i + index,
                     hashTreeRootDepositData (Deposit.data deposit)))
                 (processSortedDeposits config (deposits d) index count) in
          setMerkleTree index (merkleTree ++ added) d
      end).

Definition runStateTransition (block : BeaconBlock.t)
      (state : option BeaconState.t) : M (option BeaconState.t) :=
    state ← deref state;
    let preSlot := BeaconState.slot state in
    let preFinalizedEpoch :=
      Checkpoint.epoch (BeaconState.finalizedCheckpoint state) in
    let preJustifiedEpoch :=
      Checkpoint.epoch (BeaconState.currentJustifiedCheckpoint state) in
    (* Run the state transition *)
    result ← callStateTransition state block;
    match result with
    | Thrown e =>
        (* store block root in db and terminate *)
        let blockRoot := hashTreeRootBlock block in
        onDb (setBadBlockRoot blockRoot);;
        warn blockRoot;;
        ret None
    | Returned newState =>
        (* On successful transition, update system state *)
        let blockRoot := hashTreeRootBlock block in
        onDb (setBlock blockRoot block);;
        onDb (setState (BeaconBlock.stateRoot block) newState);;
        onForkChoice
          (addBlock (BeaconBlock.slot block) blockRoot
                    (BeaconBlock.parentRoot block));;
        updateDepositMerkleTree newState;;
        (* Post-epoch processing *)
        (if bool_decide (computeEpochOfSlot config preSlot
                         < computeEpochOfSlot config (BeaconState.slot newState))
         then
           (* Newly justified epoch *)
           (if bool_decide
                 (preJustifiedEpoch <
                  Checkpoint.epoch (BeaconState.currentJustifiedCheckpoint newState))
            then
              justifiedBlock ←
                gets (λ c, getBlock
                             (Checkpoint.root
                                (BeaconState.currentJustifiedCheckpoint newState))
                             (db c)) ≫= deref;
              justifiedState ←
                gets (λ c, getState (BeaconBlock.stateRoot justifiedBlock) (db c));
              onDb (setJustifiedBlockRoot blockRoot block);;
              onDb (setJustifiedStateRoot (BeaconBlock.stateRoot justifiedBlock)
                                          justifiedState);;
              onForkChoice (setJustified blockRoot)
            else ret tt);;
           (* Newly finalized epoch *)
           (if bool_decide
                 (preFinalizedEpoch <
                  Checkpoint.epoch (BeaconState.finalizedCheckpoint newState))
            then
              finalizedBlock ←
                gets (λ c, getBlock
                             (Checkpoint.root
                                (BeaconState.finalizedCheckpoint newState))
                             (db c)) ≫= deref;
              finalizedState ←
                gets (λ c, getState (BeaconBlock.stateRoot finalizedBlock) (db c));
              onDb (setFinalizedBlockRoot blockRoot block);;
              onDb (setFinalizedStateRoot (BeaconBlock.stateRoot finalizedBlock)
                                          finalizedState);;
              onForkChoice (setFinalized blockRoot)
            else ret tt)
         else ret tt);;
        ret (Some newState)
    end.

Definition receiveBlock (block : BeaconBlock.t) (now : Z) : M unit :=
    state ← gets latestState;
    isValid ← isValidBlock state block now;
    if negb isValid then throw AssertionError
    else
      (* process current slot *)
      state ← gets latestState;
      runStateTransition block state;;
      callProcessBlockOperations block;;
      (* forward processed block for additional processing *)
      emit (processedBlock block).

Definition applyForkChoiceRule : M unit :=
    currentRoot ← gets (λ c, getChainHeadRoot (db c));
    headRoot ← gets (λ c, head (forkChoice c));
    currentRoot ← deref currentRoot;
    if bool_decide (currentRoot = headRoot) then ret tt
    else
      block ← gets (λ c, getBlock headRoot (db c)) ≫= deref;
      onDb (setChainHeadRoots currentRoot (BeaconBlock.stateRoot block) block).

Definition initializeBeaconChain (genesisState : BeaconState.t)
      (merkleTree : MerkleTree) : M unit :=
    let stateRoot := hashTreeRootState genesisState in
    let genesisBlock := BeaconBlock.setStateRoot stateRoot getEmptyBlock in
    let blockRoot := hashTreeRootBlock genesisBlock in
    setLatestState genesisState;;
    onDb (setBlock blockRoot genesisBlock);;
    onDb (setState stateRoot genesisState);;
    onDb (setChainHeadRoots blockRoot stateRoot genesisBlock);;
    onDb (setJustifiedBlockRoot blockRoot genesisBlock);;
    onDb (setFinalizedBlockRoot blockRoot genesisBlock);;
    onDb (setLatestStateRoot stateRoot);;
    onDb (setJustifiedStateRoot stateRoot (Some genesisState));;
    onDb (setFinalizedStateRoot stateRoot (Some genesisState));;
    onDb (setMerkleTree (BeaconState.eth1DepositIndex genesisState) merkleTree);;
    onForkChoice (addBlock (BeaconBlock.slot genesisBlock) blockRoot ZERO_ROOT);;
    onForkChoice (setJustified blockRoot);;
    onForkChoice (setFinalized blockRoot).

Definition isInitialized (c : BeaconChain FC OP) : bool :=
    bool_decide (is_Some (latestState c)).

(** ** Runs of the orchestrator *)

(** What the network feeder and the clock ask of the chain. *)
Inductive Request : Type :=
| ReceiveBlock (block : BeaconBlock.t) (now : Z)
| ReceiveAttestation (attestation : Attestation.t)
| ApplyForkChoiceRule.

Definition serve (r : Request) : M unit :=
  match r with
  | ReceiveBlock block now => receiveBlock block now
  | ReceiveAttestation attestation => receiveAttestation attestation
  | ApplyForkChoiceRule => applyForkChoiceRule
  end.

(** The chain object after a list of requests, served in order; a request
    that throws leaves the chain as it was at the throw. *)
Definition serveAll (rs : list Request) (c : BeaconChain FC OP)
    : BeaconChain FC OP :=
  foldl (λ c r, (serve r c).2) c rs.

(** A chain object as the constructor leaves it, over an empty store. *)
Definition newChain (fc : FC) (pool : OP) : BeaconChain FC OP :=
  mkChain None fc emptyDb pool [] [] [].

(** The chain right after [initializeBeaconChain]. *)
Definition genesisChain (fc : FC) (pool : OP) (genesisState : BeaconState.t)
    (merkleTree : MerkleTree) : BeaconChain FC OP :=
  (initializeBeaconChain genesisState merkleTree (newChain fc pool)).2.

(** [descends b a]: block [b] has [a] among its ancestors, following
    [parentRoot]. *)
Inductive descends : BeaconBlock.t -> BeaconBlock.t -> Prop :=
| descends_child b a :
    BeaconBlock.parentRoot b = hashTreeRootBlock a -> descends b a
| descends_step b m a :
    BeaconBlock.parentRoot b = hashTreeRootBlock m ->
    descends m a -> descends b a.

(** The genesis block [initializeBeaconChain] stores for a genesis state. *)
Definition genesisBlockOf (genesisState : BeaconState.t) : BeaconBlock.t :=
  BeaconBlock.setStateRoot (hashTreeRootState genesisState) getEmptyBlock.

(** What a run from genesis keeps true of the store: the latest state is
    still the genesis state; a stored block sits under its own root and is
    the genesis block or a block the engine accepted, with its parent
    stored; a root marked bad is the root of a block the engine refused,
    with its parent stored. *)
Definition quarantine (genesisState : BeaconState.t)
    (c : BeaconChain FC OP) : Prop :=
  latestState c = Some genesisState
  /\ (forall r b,
        blocks (db c) !! r = Some b ->
        hashTreeRootBlock b = r
        /\ (b = genesisBlockOf genesisState
            \/ (isThrown (stateTransition config genesisState b true) = false
                /\ is_Some (blocks (db c) !! BeaconBlock.parentRoot b))))
  /\ (forall r,
        r ∈ badBlockRoots (db c) ->
        exists b,
          hashTreeRootBlock b = r
          /\ isThrown (stateTransition config genesisState b true) = true
          /\ is_Some (blocks (db c) !! BeaconBlock.parentRoot b)).

(** The test under which [runStateTransition] takes a post-state to
    finalize a new epoch: the block crossed into a later epoch and the
    finalized epoch of the post-state is beyond that of the pre-state. *)
Definition newlyFinalized (state newState : BeaconState.t) : bool :=
  bool_decide (computeEpochOfSlot config (BeaconState.slot state)
               < computeEpochOfSlot config (BeaconState.slot newState))
  && bool_decide (Checkpoint.epoch (BeaconState.finalizedCheckpoint state)
                  < Checkpoint.epoch (BeaconState.finalizedCheckpoint newState)).

End Methods.

(** The cardinality of an aggregation bit-field. *)
Definition bitCount (bits : list bool) : nat :=
  length (filter (λ b, b = true) bits).

End Chain.

(** * The life cycle of the chain object *)

(** [start], [stop] and [checkGenesis] of [BeaconChain], with the side of
    the eth1 notifier they touch. *)

Module Lifecycle.

Import Chain.

Module Eth1Block.
(** The fields of the ethers [Block] that [checkGenesis] reads. *)
Record t : Type := mk { hash : string; timestamp : Z }.
End Eth1Block.

(** The three messages [checkGenesis] hands to [logger.info]. *)
Inductive Info : Type :=
| Checking (hash : string)
| NotForming (hash : string)
| Initializing (hash : string).

(** The chain object together with the ['block'] listeners of [this.eth1].
    A listener is a function object; [this.checkGenesis.bind(this)] makes a
    new one at every evaluation, so each is named by the number of bound
    functions made before it. *)
Record Node (FC OP : Type) : Type := mkNode {
  chain : BeaconChain FC OP;
  listeners : list nat;
  created : nat;
  infos : list Info
}.
Arguments mkNode {FC OP}.
Arguments chain {FC OP}.
Arguments listeners {FC OP}.
Arguments created {FC OP}.
Arguments infos {FC OP}.

(** Modelled from the spec: [db.getLatestState] belongs to the
    implementation of [IBeaconDb], which is not part of the sources at
    hand; as the other getters of the key/value store it reads back what
    was written: the root put by [setLatestStateRoot], then the state
    stored under that root. *)
Definition getLatestState (d : IBeaconDb) : option BeaconState.t :=
  stateRoot ← latestStateRoot d;
  getState stateRoot d.

(** Drops the first entry equal to [f]. *)
Fixpoint removeFirst (f : nat) (ls : list nat) : list nat :=
  match ls with
  | [] => []
  | g :: ls' => if decide (g = f) then ls' else g :: removeFirst f ls'
  end.

(** [emitter.removeListener(name, f)] of Node's [EventEmitter]: at most
    one instance of [f] goes, the one added last. *)
Definition removeListener (f : nat) (ls : list nat) : list nat :=
  reverse (removeFirst f (reverse ls)).

(** [this.latestState = state], where [state] may be [null]. *)
Definition assignLatestState {FC OP} (state : option BeaconState.t)
    (c : BeaconChain FC OP) : BeaconChain FC OP :=
  mkChain state (forkChoice c) (db c) (opPool c)
          (emitted c) (warned c) (transitioned c).

Section Methods.

Context {FC OP : Type} `{!LMDGHOST FC}.

(** [this.config]; [hashTreeRoot] at the three types it is used at;
    [getEmptyBlock()]; [this.opPool.deposits.getAll()];
    [Buffer.from(hash.replace("0x", ""), "hex")]; and
    [initializeBeaconStateFromEth1] and [isValidGenesisState] of
    [./genesis/genesis].  The deposits reach
    [initializeBeaconStateFromEth1] with the proofs of the Merkle tree
    attached; the embedding hands over the tree itself. *)
Variable config : IBeaconConfig.
Variable hashTreeRootBlock : BeaconBlock.t -> Root.
Variable hashTreeRootState : BeaconState.t -> Root.
Variable hashTreeRootDepositData : list Z -> Root.
Variable getEmptyBlock : BeaconBlock.t.
Variable getAllDeposits : OP -> list Deposit.t.
Variable bufferFromHex : string -> Root.
Variable initializeBeaconStateFromEth1 :
  IBeaconConfig -> Root -> Z -> list Deposit.t -> list (Z * list Z) ->
  BeaconState.t.
Variable isValidGenesisState : IBeaconConfig -> BeaconState.t -> bool.

Definition start (n : Node FC OP) : Node FC OP :=
  let state := getLatestState (db (chain n)) in
  (* if state doesn't exist in the db, the chain maybe hasn't started *)
  let n :=
    match state with
    | None =>
        (* check every block if genesis *)
        mkNode (chain n) (listeners n ++ [created n]) (S (created n)) (infos n)
    | Some _ => n
    end in
  mkNode (assignLatestState state (chain n)) (listeners n) (created n) (infos n).

Definition stop (n : Node FC OP) : Node FC OP :=
  mkNode (chain n) (removeListener (created n) (listeners n))
         (S (created n)) (infos n).

(** The Merkle tree [checkGenesis] builds: one leaf per pooled deposit, at
    the index of the deposit. *)
Definition genesisMerkleTree (deposits : list Deposit.t) : list (Z * list Z) :=
  imap (λ index deposit,
          (Z.of_nat index, hashTreeRootDepositData (Deposit.data deposit)))
       deposits.

Definition checkGenesis (eth1Block : Eth1Block.t) (n : Node FC OP)
    : Node FC OP :=
  let deposits := getAllDeposits (opPool (chain n)) in
  let merkleTree := genesisMerkleTree deposits in
  let genesisState :=
    initializeBeaconStateFromEth1 config
      (bufferFromHex (Eth1Block.hash eth1Block))
      (Eth1Block.timestamp eth1Block) deposits merkleTree in
  if negb (isValidGenesisState config genesisState) then
    mkNode (chain n) (listeners n) (created n)
           (infos n ++ [Checking (Eth1Block.hash eth1Block);
                        NotForming (Eth1Block.hash eth1Block)])
  else
    mkNode
      (initializeBeaconChain hashTreeRootBlock hashTreeRootState getEmptyBlock
         genesisState merkleTree (chain n)).2
      (listeners n) (created n)
      (infos n ++ [Checking (Eth1Block.hash eth1Block);
                   Initializing (Eth1Block.hash eth1Block)]).

(** What is asked of the node over its life. *)
Inductive Call : Type :=
| Start
| Stop
| CheckGenesis (eth1Block : Eth1Block.t).

Definition call (k : Call) (n : Node FC OP) : Node FC OP :=
  match k with
  | Start => start n
  | Stop => stop n
  | CheckGenesis eth1Block => checkGenesis eth1Block n
  end.

Definition callAll (ks : list Call) (n : Node FC OP) : Node FC OP :=
  foldl (λ n k, call k n) n ks.

(** A node as the constructors leave it: no listener, no bound function. *)
Definition newNode (c : BeaconChain FC OP) : Node FC OP :=
  mkNode c [] 0%nat [].

End Methods.

End Lifecycle.

(** * Checkpoint marks *)

Module Marks.

Import Chain.

(** The test under which [runStateTransition] takes a post-state to
    justify a new epoch, the twin of [newlyFinalized]. *)
Definition newlyJustified (config : IBeaconConfig)
    (state newState : BeaconState.t) : bool :=
  bool_decide (computeEpochOfSlot config (BeaconState.slot state)
               < computeEpochOfSlot config (BeaconState.slot newState))
  && bool_decide
       (Checkpoint.epoch (BeaconState.currentJustifiedCheckpoint state)
        < Checkpoint.epoch (BeaconState.currentJustifiedCheckpoint newState)).

End Marks.

(** * The dev network *)

(** [packages/cli/src/networks/dev.ts]: the chain config of the dev
    command follows the active preset. *)

Module DevNetwork.

Section WithParams.

(** [PresetName] and [ACTIVE_PRESET] come from [@lodestar/params], the
    four chain configs from [@lodestar/config]. *)
Context {PresetName ChainConfig : Type} `{EqDecision PresetName}.
Variables mainnet minimal gnosis praseody : PresetName.
Variables mainnetChainConfig minimalChainConfig : ChainConfig.
Variables gnosisChainConfig praseodyChainConfig : ChainConfig.

(** [Error(`Preset ${ACTIVE_PRESET} not supported with dev command`)]. *)
Inductive DevError : Type :=
| PresetNotSupported (preset : PresetName).

(** The [switch] that fills [chainConfig] when the module is loaded. *)
Definition chainConfig (ACTIVE_PRESET : PresetName)
    : Outcome DevError ChainConfig :=
  if decide (ACTIVE_PRESET = mainnet) then Returned mainnetChainConfig
  else if decide (ACTIVE_PRESET = minimal) then Returned minimalChainConfig
  else if decide (ACTIVE_PRESET = gnosis) then Returned gnosisChainConfig
  else if decide (ACTIVE_PRESET = praseody) then Returned praseodyChainConfig
  else Thrown (PresetNotSupported ACTIVE_PRESET).

End WithParams.

End DevNetwork.

(** * A small concrete chain

    Stand-ins for the collaborators of the chain that are not part of
    the sources at hand, used to run the orchestrator on concrete
    requests. *)

Module Demo.

Import Chain.

(** A fork choice that notes the calls made on it; its head is the root
    of the block added last. *)
Inductive ForkChoiceCall : Type :=
| AddBlock (slot : Z) (blockRoot parentRoot : Root)
| AddAttestation (blockRoot : Root) (attester : nat) (weight : option Z)
| SetJustified (blockRoot : Root)
| SetFinalized (blockRoot : Root).

Fixpoint lastAdded (calls : list ForkChoiceCall) (acc : Root) : Root :=
  match calls with
  | [] => acc
  | AddBlock _ r _ :: calls' => lastAdded calls' r
  | _ :: calls' => lastAdded calls' acc
  end.

#[export] Instance NotingForkChoice : LMDGHOST (list ForkChoiceCall) := {|
  addBlock slot blockRoot parentRoot fc := fc ++ [AddBlock slot blockRoot parentRoot];
  addAttestation blockRoot attester weight fc :=
    fc ++ [AddAttestation blockRoot attester weight];
  setJustified blockRoot fc := fc ++ [SetJustified blockRoot];
  setFinalized blockRoot fc := fc ++ [SetFinalized blockRoot];
  head fc := lastAdded fc ZERO_ROOT
|}.

(** An operation pool that counts the blocks it processed. *)
#[export] Instance CountingOpPool : OpPoolApi nat := {|
  processBlockOperations _ n := Returned (S n)
|}.

Definition config : IBeaconConfig := mkConfig 6 8.

(** A collision-free stand-in for [hashTreeRoot] on blocks: the fields,
    length-prefixed, behind a tag. *)
Definition hashBlock (b : BeaconBlock.t) : Root :=
  1 :: BeaconBlock.slot b
    :: Z.of_nat (length (BeaconBlock.parentRoot b))
    :: Z.of_nat (length (BeaconBlock.stateRoot b))
    :: BeaconBlock.parentRoot b ++ BeaconBlock.stateRoot b ++ BeaconBlock.body b.

Definition hashState (s : BeaconState.t) : Root :=
  [2; BeaconState.slot s;
   Checkpoint.epoch (BeaconState.currentJustifiedCheckpoint s);
   Checkpoint.epoch (BeaconState.finalizedCheckpoint s)].

Definition hashDepositData (d : list Z) : Root := 3 :: d.

(** A stand-in for [stateTransition].  Like the engine of the
    specification it returns the post-state and leaves the comparison of
    state roots to its caller, whatever its last argument, and it throws on
    a block that is not ahead of the state.  An empty body
    leaves the checkpoints alone; a body [je :: fe :: r] makes the
    post-state justify epoch [je] and finalize epoch [fe], both at the
    root [r]. *)
Definition engine (_ : IBeaconConfig) (state : BeaconState.t)
    (block : BeaconBlock.t) (_ : bool) : Outcome Error BeaconState.t :=
  if bool_decide (BeaconState.slot state < BeaconBlock.slot block) then
    match BeaconBlock.body block with
    | [] => Returned (BeaconState.setSlot (BeaconBlock.slot block) state)
    | [_] => Thrown EngineError
    | je :: fe :: r =>
        Returned
          (BeaconState.mk (BeaconBlock.slot block)
             (BeaconState.genesisTime state)
             (BeaconState.validators state) (BeaconState.balances state)
             (Checkpoint.mk je r) (Checkpoint.mk fe r)
             (BeaconState.eth1DepositIndex state)
             (BeaconState.eth1Data state))
    end
  else Thrown EngineError.

(** Every validator sits in the committee of every attestation. *)
Definition committee (_ : IBeaconConfig) (state : BeaconState.t)
    (_ : AttestationData.t) : list nat :=
  seq 0 (length (BeaconState.validators state)).

Definition sortedDeposits (_ : IBeaconConfig) (ds : list Deposit.t)
    (_ _ : Z) : list Deposit.t := ds.

Definition emptyBlock : BeaconBlock.t :=
  BeaconBlock.mk 0 ZERO_ROOT ZERO_ROOT [].

(** Two validators; the second holds more than its effective balance. *)
Definition genesisState : BeaconState.t :=
  BeaconState.mk 0 0
    [Validator.mk 32000000000 false; Validator.mk 32000000000 false]
    [32000000000; 32500000000]
    (Checkpoint.mk 0 ZERO_ROOT) (Checkpoint.mk 0 ZERO_ROOT)
    0 (Eth1Data.mk 0).

Definition genesisBlock : BeaconBlock.t :=
  BeaconBlock.setStateRoot (hashState genesisState) emptyBlock.

Definition genesisRoot : Root := hashBlock genesisBlock.

(** The chain after [initializeBeaconChain(genesisState, [])]. *)
Abbreviation chain0 :=
  (genesisChain hashBlock hashState emptyBlock
     ([] : list ForkChoiceCall) 0%nat genesisState []).

(** The methods of the chain, with the stand-ins in place. *)
Abbreviation receive :=
  (receiveBlock (FC:=list ForkChoiceCall) (OP:=nat) config 0 hashBlock
     hashDepositData engine sortedDeposits).

Abbreviation requests :=
  (serveAll (FC:=list ForkChoiceCall) (OP:=nat) config 0 hashBlock
     hashDepositData engine committee sortedDeposits).

Abbreviation receiveAtt :=
  (receiveAttestation (FC:=list ForkChoiceCall) (OP:=nat) config committee).

Abbreviation applyRule :=
  (applyForkChoiceRule (FC:=list ForkChoiceCall) (OP:=nat)).

(** A block with the state root its post-state has under [engine]. *)
Definition honestBlock (slot : Z) (parentRoot : Root) (body : list Z)
    : BeaconBlock.t :=
  let draft := BeaconBlock.mk slot parentRoot ZERO_ROOT body in
  match engine config genesisState draft true with
  | Returned post => BeaconBlock.setStateRoot (hashState post) draft
  | Thrown _ => draft
  end.

(** A wall clock late enough for every slot used below. *)
Definition late : Z := 1000000.

(** Amounts in gwei, as numbers. *)
Definition gwei (amounts : list Z) : list Number.t := Number.Finite <$> amounts.

(** Stand-ins for the collaborators of the rewards step: two forks, and
    fixed deltas for three validators. *)
Inductive Fork : Type := Phase0 | Altair.

#[export] Instance Fork_eq_dec : EqDecision Fork.
Proof. solve_decision. Defined.

Definition forkAt (slot : Z) : Fork :=
  if bool_decide (slot < 32) then Phase0 else Altair.

Definition phase0Deltas (_ : Epoch.CachedBeaconStateAllForks)
    (_ : Epoch.EpochTransitionCache) : list Number.t * list Number.t :=
  (gwei [1; 2; 3], gwei [20; 1; 0]).

Definition altairDeltas (_ : Epoch.CachedBeaconStateAllForks)
    (_ : Epoch.EpochTransitionCache) : list Number.t * list Number.t :=
  (gwei [0; 0; 7], gwei [4; 0; 0]).

Definition epochState : Epoch.CachedBeaconStateAllForks :=
  Epoch.mkState 16 (gwei [10; 0; 5]).

Definition rewardsStep :=
  Epoch.processRewardsAndPenalties 0 Phase0 forkAt phase0Deltas altairDeltas.

(** One validator with a balance beyond [2^53], no reward and a penalty
    of [2^53]. *)
Definition largeState : Epoch.CachedBeaconStateAllForks :=
  Epoch.mkState 16 (gwei [2 ^ 53 + 2]).

Definition largeDeltas (_ : Epoch.CachedBeaconStateAllForks)
    (_ : Epoch.EpochTransitionCache) : list Number.t * list Number.t :=
  (gwei [0], gwei [2 ^ 53]).

Definition largeRewardsStep :=
  Epoch.processRewardsAndPenalties 0 Phase0 forkAt largeDeltas altairDeltas.

Definition genesisCheckpoint : Checkpoint.t := Checkpoint.mk 0 genesisRoot.

(** An attestation to the genesis block with the given aggregation bits. *)
Definition attestationWith (bits : list bool) : Attestation.t :=
  Attestation.mk bits
    (AttestationData.mk genesisRoot genesisCheckpoint genesisCheckpoint) [].


(** A stand-in for [assembleAttestationData], over a database with
    nothing in it and shards that are numbers: a vote for the head block,
    from the justified checkpoint of the state to the epoch of its slot. *)
Definition dataFor (config : IBeaconConfig) (_ : unit) (state : BeaconState.t)
    (headBlock : BeaconBlock.t) (_ : Z) : Outcome Error AttestationData.t :=
  Returned
    (AttestationData.mk (hashBlock headBlock)
       (BeaconState.currentJustifiedCheckpoint state)
       (Checkpoint.mk (computeEpochOfSlot config (BeaconState.slot state))
          (hashBlock headBlock))).

(** The genesis state moved to slot [2^53]. *)
Definition lateState : BeaconState.t := BeaconState.setSlot (2 ^ 53) genesisState.

(** ** Blocks for the runs below *)

(** A block the engine refuses (a body of one number), its child and
    its grandchild. *)
Definition refused : BeaconBlock.t := BeaconBlock.mk 1 genesisRoot ZERO_ROOT [7].
Definition refusedToo : BeaconBlock.t := BeaconBlock.mk 1 genesisRoot ZERO_ROOT [8].
Definition refusedChild : BeaconBlock.t :=
  BeaconBlock.mk 2 (hashBlock refused) ZERO_ROOT [].
Definition refusedGrandchild : BeaconBlock.t :=
  BeaconBlock.mk 3 (hashBlock refusedChild) ZERO_ROOT [].

(** A block the engine accepts, but which claims a state root that is
    not the root of its post-state. *)
Definition mismatched : BeaconBlock.t :=
  BeaconBlock.mk 1 genesisRoot [9; 9; 9] [].

(** A block in the second epoch whose post-state justifies epoch 1 at a
    root that names no stored block. *)
Definition dangling : BeaconBlock.t :=
  honestBlock 8 genesisRoot [1; 0; 5; 5; 5].

(** Two branches off genesis: [blockX] at slot 24 and [blockY] at slot 8.
    [blockA], on top of [blockX], has a post-state under [engine] that
    finalizes epoch 3 at [blockX]. *)
Definition blockX : BeaconBlock.t := honestBlock 24 genesisRoot [].
Definition blockY : BeaconBlock.t := honestBlock 8 genesisRoot [].
Definition blockA : BeaconBlock.t :=
  honestBlock 40 (hashBlock blockX) (3 :: 3 :: hashBlock blockX).

(** The chain after one accepted block at slot 1. *)
Definition block1 : BeaconBlock.t := honestBlock 1 genesisRoot [].
Definition chain1 : BeaconChain (list ForkChoiceCall) nat :=
  requests [ReceiveBlock block1 late] chain0.

(** ** Stand-ins for the life cycle and the dev network *)

(** The pool holds as many deposits as it processed blocks. *)
Definition pooledDeposits (pool : nat) : list Deposit.t :=
  (λ i, Deposit.mk [Z.of_nat i]) <$> seq 0 pool.

Definition fromHex (hash : string) : Root := [Z.of_nat (String.length hash)].

(** A genesis state with the eth1 timestamp as genesis time and one
    deposit index per deposit. *)
Definition stateFromEth1 (_ : IBeaconConfig) (_ : Root) (timestamp : Z)
    (deposits : list Deposit.t) (_ : list (Z * list Z)) : BeaconState.t :=
  BeaconState.mk 0 timestamp [] []
    (Checkpoint.mk 0 ZERO_ROOT) (Checkpoint.mk 0 ZERO_ROOT)
    (Z.of_nat (length deposits)) (Eth1Data.mk (Z.of_nat (length deposits))).

(** Genesis needs an eth1 timestamp of 1000 at least. *)
Definition validGenesis (_ : IBeaconConfig) (state : BeaconState.t) : bool :=
  bool_decide (1000 <= BeaconState.genesisTime state).

Definition earlyEth1Block : Lifecycle.Eth1Block.t :=
  Lifecycle.Eth1Block.mk "0x01" 10.
Definition genesisEth1Block : Lifecycle.Eth1Block.t :=
  Lifecycle.Eth1Block.mk "0x02" 2000.
Definition laterEth1Block : Lifecycle.Eth1Block.t :=
  Lifecycle.Eth1Block.mk "0x03" 3000.

Abbreviation lifeCalls :=
  (Lifecycle.callAll (FC:=list ForkChoiceCall) (OP:=nat) config hashBlock
     hashState hashDepositData emptyBlock pooledDeposits fromHex
     stateFromEth1 validGenesis).

(** A node over an empty store, before [start]. *)
Abbreviation node0 :=
  (Lifecycle.newNode (newChain ([] : list ForkChoiceCall) 0%nat)).

(** Deltas for two validators only, one fewer than [epochState] has. *)
Definition shortDeltas (_ : Epoch.CachedBeaconStateAllForks)
    (_ : Epoch.EpochTransitionCache) : list Number.t * list Number.t :=
  (gwei [1; 2], gwei [20; 1]).

(** The chain with [blockX] and [blockY] stored, before [blockA]. *)
Definition chainXY : BeaconChain (list ForkChoiceCall) nat :=
  requests [ReceiveBlock blockX late; ReceiveBlock blockY late] chain0.

(** The presets of the dev network. *)
Inductive Preset : Type :=
| PresetMainnet | PresetMinimal | PresetGnosis | PresetPraseody | PresetOther.

#[export] Instance Preset_eq_dec : EqDecision Preset.
Proof. solve_decision. Defined.

(** The post-state of [blockA] under [engine]. *)
Definition postA : BeaconState.t :=
  BeaconState.mk 40 0
    (BeaconState.validators genesisState) (BeaconState.balances genesisState)
    (Checkpoint.mk 3 (hashBlock blockX)) (Checkpoint.mk 3 (hashBlock blockX))
    0 (Eth1Data.mk 0).

Abbreviation transition :=
  (runStateTransition (FC:=list ForkChoiceCall) (OP:=nat) config hashBlock
     hashDepositData engine sortedDeposits).

(** The genesis store under a chain object that has lost its latest
    state. *)
Definition forgetful : BeaconChain (list ForkChoiceCall) nat :=
  Lifecycle.assignLatestState None chain0.

Definition shortRewardsStep :=
  Epoch.processRewardsAndPenalties 0 Phase0 forkAt shortDeltas altairDeltas.

(** ** A second genesis *)

(** A stand-in for [hashTreeRoot] on states that tells genesis times
    apart. *)
Definition hashStateAll (s : BeaconState.t) : Root :=
  [2; BeaconState.slot s; BeaconState.genesisTime s;
   Checkpoint.epoch (BeaconState.currentJustifiedCheckpoint s);
   Checkpoint.epoch (BeaconState.finalizedCheckpoint s);
   BeaconState.eth1DepositIndex s].

(** A stand-in for [stateTransition] that, as block processing does,
    takes a block only on top of the latest block of the state it is
    given; for a genesis state that is the genesis block
    [initializeBeaconChain] stores with it.  The post-state is the state at
    the slot of the block; no checkpoint moves. *)
Definition parentCheckingEngine (_ : IBeaconConfig) (state : BeaconState.t)
    (block : BeaconBlock.t) (_ : bool) : Outcome Error BeaconState.t :=
  if bool_decide (BeaconState.slot state < BeaconBlock.slot block)
     && bool_decide (BeaconBlock.parentRoot block
                     = hashBlock (genesisBlockOf hashStateAll emptyBlock state))
  then Returned (BeaconState.setSlot (BeaconBlock.slot block) state)
  else Thrown EngineError.

Abbreviation strictReceive :=
  (receiveBlock (FC:=list ForkChoiceCall) (OP:=nat) config 0 hashBlock
     hashDepositData parentCheckingEngine sortedDeposits).

(** The genesis state of a later genesis: the same validators, twelve
    seconds on. *)
Definition secondGenesisState : BeaconState.t :=
  BeaconState.mk 0 12
    (BeaconState.validators genesisState) (BeaconState.balances genesisState)
    (Checkpoint.mk 0 ZERO_ROOT) (Checkpoint.mk 0 ZERO_ROOT)
    0 (Eth1Data.mk 0).

(** A block on top of the first genesis block, and its child. *)
Definition firstBlock : BeaconBlock.t :=
  BeaconBlock.mk 1
    (hashBlock (genesisBlockOf hashStateAll emptyBlock genesisState))
    (hashStateAll (BeaconState.setSlot 1 genesisState)) [].

Definition firstChild : BeaconBlock.t :=
  BeaconBlock.mk 2 (hashBlock firstBlock)
    (hashStateAll (BeaconState.setSlot 2 genesisState)) [].

(** [firstBlock] is received and stored; the chain is initialized a second
    time, as [checkGenesis] does when a later eth1 block forms a genesis;
    [firstBlock] is received again. *)
Definition chainStored : BeaconChain (list ForkChoiceCall) nat :=
  (strictReceive firstBlock late
     (genesisChain hashBlock hashStateAll emptyBlock [] 0%nat genesisState [])).2.

Definition chainAgain : BeaconChain (list ForkChoiceCall) nat :=
  (initializeBeaconChain hashBlock hashStateAll emptyBlock secondGenesisState []
     chainStored).2.

Definition chainMarked : BeaconChain (list ForkChoiceCall) nat :=
  (strictReceive firstBlock late chainAgain).2.

End Demo.

(** * Properties of the numbers *)

Section NumberFacts.

Import Number.

(** Up to [2^53] the integers are numbers: nothing is rounded. *)
Lemma round_safe (z : Z) : Z.abs z <= 2 ^ 53 -> round z = z.
Proof. intros Hz. unfold round. by rewrite bool_decide_eq_true_2. Qed.

Lemma ofInteger_safe (z : Z) : Z.abs z <= 2 ^ 53 -> ofInteger z = Finite z.
Proof.
  intros Hz. unfold ofInteger. rewrite (round_safe z Hz).
  rewrite bool_decide_eq_false_2; [done|].
  assert (2 ^ 53 < 2 ^ 1024) by (apply Z.pow_lt_mono_r; lia). lia.
Qed.

Lemma add_safe (a b : Z) :
  Z.abs (a + b) <= 2 ^ 53 -> add (Finite a) (Finite b) = Finite (a + b).
Proof. apply ofInteger_safe. Qed.

Lemma sub_safe (a b : Z) :
  Z.abs (a - b) <= 2 ^ 53 -> sub (Finite a) (Finite b) = Finite (a - b).
Proof. intros Hab. unfold sub, neg. by rewrite add_safe. Qed.

Lemma max_zero_finite (a : Z) : max (Finite 0) (Finite a) = Finite (Z.max 0 a).
Proof.
  unfold max, ltb. case_bool_decide.
  - by rewrite Z.max_r by lia.
  - by rewrite Z.max_l by lia.
Qed.

(** [Math.max(0, x)] is never below zero. *)
Lemma max_zero_not_negative (x : t) : ltb (max (Finite 0) x) (Finite 0) = false.
Proof.
  destruct x as [a|[|]|]; simpl; try done.
  case_bool_decide; simpl; [|done].
  apply bool_decide_eq_false_2. lia.
Qed.

Lemma length_arraySet (i : nat) (v : t) (array : list t) :
  length (arraySet i v array) = (length array `max` S i)%nat.
Proof.
  unfold arraySet. destruct (decide (i < length array)%nat).
  - rewrite length_insert. lia.
  - rewrite !length_app, length_replicate. simpl. lia.
Qed.

Lemma lookup_arraySet_eq (i : nat) (v : t) (array : list t) :
  arraySet i v array !! i = Some v.
Proof.
  unfold arraySet. destruct (decide (i < length array)%nat).
  - by apply list_lookup_insert_eq.
  - rewrite lookup_app_r by lia. rewrite lookup_app_r; rewrite length_replicate; [|lia].
    by rewrite Nat.sub_diag.
Qed.

(** A write that is not beyond the first free index leaves the other
    indices as they were. *)
Lemma lookup_arraySet_ne (i j : nat) (v : t) (array : list t) :
  (i <= length array)%nat -> j <> i ->
  arraySet i v array !! j = array !! j.
Proof.
  intros Hi Hne. unfold arraySet. destruct (decide (i < length array)%nat).
  - by apply list_lookup_insert_ne.
  - assert (i = length array) as -> by lia.
    rewrite Nat.sub_diag. simpl.
    destruct (decide (j < length array)%nat).
    + by rewrite lookup_app_l.
    + rewrite lookup_app_r by lia.
      rewrite (lookup_ge_None_2 array) by lia.
      destruct (j - length array)%nat eqn:Hd; [lia|done].
Qed.

End NumberFacts.

(** * Properties of the rewards and penalties step *)

Section EpochFacts.

Import Epoch.

Context (GENESIS_EPOCH : Z) {ForkSeq : Type} `{EqDecision ForkSeq}.
Context (phase0 : ForkSeq) (getForkSeq : Z -> ForkSeq).
Context (getAttestationDeltas getRewardsAndPenaltiesAltair :
           CachedBeaconStateAllForks -> EpochTransitionCache ->
           list Number.t * list Number.t).

(** With sums that stay between [0] and [2^53] the two helpers compute on
    the integers: add, then subtract and stop at zero. *)
Lemma decrease_after_increase (b r p s : Z) :
  0 <= b + r <= 2 ^ 53 -> 0 <= p + s <= 2 ^ 53 ->
  decreaseBalanceWithVal
    (increaseBalanceWithVal (Number.Finite b) (Number.Finite r))
    (Number.add (Number.Finite p) (Number.Finite s))
  = Number.Finite (Z.max 0 (b + r - (p + s))).
Proof.
  intros Hbr Hps. unfold decreaseBalanceWithVal, increaseBalanceWithVal.
  rewrite !add_safe by lia. rewrite sub_safe by lia.
  apply max_zero_finite.
Qed.

Lemma decreaseBalanceWithVal_not_negative (b d : Number.t) :
  Number.ltb (decreaseBalanceWithVal b d) (Number.Finite 0) = false.
Proof. apply max_zero_not_negative. Qed.

(** The loop from index [i] for [n] rounds, started no further than the
    first free index: the array grows to hold the indices visited, the
    indices outside [i, i+n) keep what they had, and each index inside is
    settled once, from what it had when the loop started. *)
Lemma loopFrom_spec (rewards penalties sp : list Number.t) (n : nat) :
  forall (i : nat) (bs : list Number.t),
    (i <= length bs)%nat ->
    length (loopFrom rewards penalties sp i n bs)
    = (length bs `max` (i + n))%nat
    /\ (forall j, (j < i \/ i + n <= j)%nat ->
          loopFrom rewards penalties sp i n bs !! j = bs !! j)
    /\ (forall j, (i <= j < i + n)%nat ->
          loopFrom rewards penalties sp i n bs !! j
          = Some (decreaseBalanceWithVal
                    (increaseBalanceWithVal (Number.ofOperand (bs !! j))
                       (Number.ofOperand (rewards !! j)))
                    (Number.add (Number.ofOperand (penalties !! j))
                       (default (Number.Finite 0) (sp !! j))))).
Proof.
  induction n as [|n IH]; intros i bs Hi.
  - simpl. split; [lia|]. split; [done|]. intros; lia.
  - simpl. unfold loopBody.
    set (v := decreaseBalanceWithVal _ _).
    destruct (IH (S i) (Number.arraySet i v bs)) as (Hlen & Hout & Hin).
    { rewrite length_arraySet. lia. }
    rewrite length_arraySet in Hlen.
    split; [lia|]. split.
    + intros j Hj. rewrite Hout by lia.
      apply lookup_arraySet_ne; lia.
    + intros j Hj. destruct (decide (j = i)) as [->|Hne].
      * rewrite Hout by lia. apply lookup_arraySet_eq.
      * rewrite Hin by lia.
        by rewrite (lookup_arraySet_ne i j v bs) by lia.
Qed.

(** C9.  When the current epoch is the genesis epoch,
    [processRewardsAndPenalties] returns at once: the state and the cache
    come back as they were, no balance is modified and no operation is
    made on the balances tree (no read, no leaf write, no rebuild). *)
Theorem C9_genesis_epoch_is_skipped
    (state : CachedBeaconStateAllForks) (cache : EpochTransitionCache)
    (slashingPenalties : list Number.t) :
  currentEpoch cache = GENESIS_EPOCH ->
  processRewardsAndPenalties GENESIS_EPOCH phase0 getForkSeq
    getAttestationDeltas getRewardsAndPenaltiesAltair
    state cache slashingPenalties
  = (state, cache, []).
Proof.
  intros Hgen. unfold processRewardsAndPenalties.
  destruct (decide (currentEpoch cache = GENESIS_EPOCH)); [reflexivity|].
  contradiction.
Qed.

(** C2, as the code has it.  After the genesis epoch
    [processRewardsAndPenalties] reads all balances once, settles the
    validators the rewards name and rebuilds the balances tree once, with
    no per-leaf write; the new balances are also kept in [cache.balances].
    For a validator [i] whose amounts are integers with
    [old + rewards[i]] and [penalties[i] + slashingPenalties[i]] between
    [0] and [2^53], a missing slashing penalty counting as zero, the new
    balance is [max 0 (old + rewards[i] - (penalties[i] +
    slashingPenalties[i]))].  No settled balance is below zero. *)
Theorem C2_balances_settled_in_one_rebuild
    (state : CachedBeaconStateAllForks) (cache : EpochTransitionCache)
    (slashingPenalties rewards penalties : list Number.t) :
  GENESIS_EPOCH < currentEpoch cache ->
  getRewardsAndPenalties phase0 getForkSeq getAttestationDeltas
    getRewardsAndPenaltiesAltair state cache = (rewards, penalties) ->
  exists balances',
    processRewardsAndPenalties GENESIS_EPOCH phase0 getForkSeq
      getAttestationDeltas getRewardsAndPenaltiesAltair
      state cache slashingPenalties
    = (mkState (slot state) balances',
       mkCache (currentEpoch cache) (Some balances'),
       [ReadAll; Rebuild balances'])
    /\ length balances'
       = (length (balances state) `max` length rewards)%nat
    /\ (forall (i : nat) (b r p s : Z),
          balances state !! i = Some (Number.Finite b) ->
          rewards !! i = Some (Number.Finite r) ->
          penalties !! i = Some (Number.Finite p) ->
          default (Number.Finite 0) (slashingPenalties !! i)
          = Number.Finite s ->
          0 <= b + r <= 2 ^ 53 ->
          0 <= p + s <= 2 ^ 53 ->
          balances' !! i = Some (Number.Finite (Z.max 0 (b + r - (p + s)))))
    /\ (forall (i : nat) b',
          (i < length rewards)%nat ->
          balances' !! i = Some b' ->
          Number.ltb b' (Number.Finite 0) = false)
    /\ length (filter (λ op, isRebuild op = true) [ReadAll; Rebuild balances']) = 1%nat
    /\ filter (λ op, isSetLeaf op = true) [ReadAll; Rebuild balances'] = [].
Proof.
  intros Hepoch Hdeltas.
  destruct (loopFrom_spec rewards penalties slashingPenalties
              (length rewards) 0 (balances state))
    as (Hlen & _ & Hin); [lia|].
  eexists. unfold processRewardsAndPenalties.
  destruct (decide (currentEpoch cache = GENESIS_EPOCH)) as [Heq|_]; [lia|].
  rewrite Hdeltas. cbv zeta.
  split; [reflexivity|]. split; [exact Hlen|]. split; [|split; [|split]].
  - intros i b r p s Hb Hr Hp Hs Hbr Hps.
    rewrite Hin by (apply lookup_lt_Some in Hr; lia).
    rewrite Hb, Hr, Hp, Hs. cbn [Number.ofOperand default from_option id].
    by rewrite decrease_after_increase.
  - intros i b' Hi Hb'. rewrite Hin in Hb' by lia.
    injection Hb' as <-. apply decreaseBalanceWithVal_not_negative.
  - reflexivity.
  - reflexivity.
Qed.

End EpochFacts.

Example rewardsStep_run :
  Demo.rewardsStep Demo.epochState (Epoch.mkCache 2 None) (Demo.gwei [0; 5])
  = (Epoch.mkState 16 (Demo.gwei [0; 0; 8]),
     Epoch.mkCache 2 (Some (Demo.gwei [0; 0; 8])),
     [Epoch.ReadAll; Epoch.Rebuild (Demo.gwei [0; 0; 8])]).
Proof. vm_compute. reflexivity. Qed.

Lemma C9_genesis_epoch_is_skipped_witness :
  Demo.rewardsStep Demo.epochState (Epoch.mkCache 0 None) (Demo.gwei [0; 5])
  = (Demo.epochState, Epoch.mkCache 0 None, []).
Proof.
  apply (C9_genesis_epoch_is_skipped 0 Demo.Phase0 Demo.forkAt
           Demo.phase0Deltas Demo.altairDeltas).
  reflexivity.
Defined.

Lemma C2_balances_settled_in_one_rebuild_witness :
  exists balances',
    Demo.rewardsStep Demo.epochState (Epoch.mkCache 2 None) (Demo.gwei [0; 5])
    = (Epoch.mkState 16 balances',
       Epoch.mkCache 2 (Some balances'),
       [Epoch.ReadAll; Epoch.Rebuild balances'])
    /\ length balances' = (3 `max` 3)%nat
    /\ (forall (i : nat) (b r p s : Z),
          Demo.gwei [10; 0; 5] !! i = Some (Number.Finite b) ->
          Demo.gwei [1; 2; 3] !! i = Some (Number.Finite r) ->
          Demo.gwei [20; 1; 0] !! i = Some (Number.Finite p) ->
          default (Number.Finite 0) (Demo.gwei [0; 5] !! i) = Number.Finite s ->
          0 <= b + r <= 2 ^ 53 ->
          0 <= p + s <= 2 ^ 53 ->
          balances' !! i = Some (Number.Finite (Z.max 0 (b + r - (p + s)))))
    /\ (forall (i : nat) b',
          (i < 3)%nat ->
          balances' !! i = Some b' ->
          Number.ltb b' (Number.Finite 0) = false)
    /\ length (filter (λ op, Epoch.isRebuild op = true)
                 [Epoch.ReadAll; Epoch.Rebuild balances']) = 1%nat
    /\ filter (λ op, Epoch.isSetLeaf op = true)
         [Epoch.ReadAll; Epoch.Rebuild balances'] = [].
Proof.
  apply (C2_balances_settled_in_one_rebuild 0 Demo.Phase0 Demo.forkAt
           Demo.phase0Deltas Demo.altairDeltas
           Demo.epochState (Epoch.mkCache 2 None) (Demo.gwei [0; 5])
           (Demo.gwei [1; 2; 3]) (Demo.gwei [20; 1; 0])).
  - simpl. lia.
  - reflexivity.
Defined.

(** A balance of [2^53 + 2], a penalty of [2^53] and a slashing penalty of
    [1], all three numbers: the sum of the two penalties is rounded to
    [2^53], and the balance left is [2], not [1]. *)
Lemma C2_counterexample_penalty_sum_is_rounded :
  Number.round (2 ^ 53 + 2) = 2 ^ 53 + 2
  /\ Demo.largeRewardsStep Demo.largeState (Epoch.mkCache 2 None) (Demo.gwei [1])
     = (Epoch.mkState 16 (Demo.gwei [2]),
        Epoch.mkCache 2 (Some (Demo.gwei [2])),
        [Epoch.ReadAll; Epoch.Rebuild (Demo.gwei [2])])
  /\ Z.max 0 (2 ^ 53 + 2 + 0 - (2 ^ 53 + 1)) = 1.
Proof. split; [|split]; vm_compute; reflexivity. Qed.

(** * Properties of the attestation factory *)

Section AttestationFactoryFacts.

Import AttestationFactory.

Context {BeaconDB Shard : Type}.
Context (assembleAttestationData :
           IBeaconConfig -> BeaconDB -> BeaconState.t -> BeaconBlock.t ->
           Shard -> Outcome Error AttestationData.t).

Lemma setSlot_same (state : BeaconState.t) :
  BeaconState.setSlot (BeaconState.slot state) state = state.
Proof. by destruct state. Qed.

Lemma setSlot_setSlot (v w : Z) (state : BeaconState.t) :
  BeaconState.setSlot v (BeaconState.setSlot w state) = BeaconState.setSlot v state.
Proof. reflexivity. Qed.

(** A slot that is not ahead of [state.slot] never enters the loop. *)
Lemma advanceSlot_not_ahead (fuel : nat) (state : BeaconState.t) (slot : Z) :
  slot <= BeaconState.slot state -> advanceSlot fuel state slot = Some state.
Proof.
  intros Hbehind. destruct fuel; simpl; by rewrite bool_decide_eq_false_2 by lia.
Qed.

(** Between [-2^53] and [2^53] every increment is exact: the loop ends
    after [slot - state.slot] rounds, with [state.slot] at the larger of
    the two slots and no other field touched. *)
Lemma advanceSlot_max (fuel : nat) :
  forall (state : BeaconState.t) (slot : Z),
    - 2 ^ 53 <= BeaconState.slot state -> slot <= 2 ^ 53 ->
    slot - BeaconState.slot state <= Z.of_nat fuel ->
    advanceSlot fuel state slot
    = Some (BeaconState.setSlot (Z.max (BeaconState.slot state) slot) state).
Proof.
  induction fuel as [|fuel IH]; intros state slot Hlow Hhigh Hfuel.
  - rewrite advanceSlot_not_ahead by lia.
    rewrite Z.max_l by lia. by rewrite setSlot_same.
  - simpl. case_bool_decide as Hahead.
    + rewrite round_safe by lia.
      rewrite IH by (simpl; lia).
      rewrite setSlot_setSlot. simpl. do 2 f_equal. lia.
    + rewrite Z.max_l by lia. by rewrite setSlot_same.
Qed.

(** Where adding one is rounded back to [state.slot], the loop makes no
    progress: no amount of fuel brings it to an end. *)
Lemma advanceSlot_stuck (fuel : nat) (state : BeaconState.t) (slot : Z) :
  BeaconState.slot state < slot ->
  Number.round (BeaconState.slot state + 1) = BeaconState.slot state ->
  advanceSlot fuel state slot = None.
Proof.
  intros Hahead Hround. induction fuel as [|fuel IH]; simpl;
    rewrite bool_decide_eq_true_2 by done; [done|].
  by rewrite Hround, setSlot_same.
Qed.

(** C10, as the code has it.  When the slot asked for is not ahead of
    [state.slot], or both lie between [-2^53] and [2^53],
    [assembleAttestation] comes back after [slot - state.slot] rounds of
    its loop at most; the state it was given differs afterwards in [slot]
    alone, which is [max(state.slot, slot)]; and what it returns is what
    [assembleAttestationData] gives on that state, wrapped with empty
    [custodyBit0Indices] and [custodyBit1Indices] and no signature. *)
Theorem C10_assembleAttestation_frame
    (config : IBeaconConfig) (db : BeaconDB) (state : BeaconState.t)
    (headBlock : BeaconBlock.t) (slot : Z) (shard : Shard) (fuel : nat) :
  slot <= BeaconState.slot state
  \/ (- 2 ^ 53 <= BeaconState.slot state /\ slot <= 2 ^ 53) ->
  slot - BeaconState.slot state <= Z.of_nat fuel ->
  let state' :=
    BeaconState.setSlot (Z.max (BeaconState.slot state) slot) state in
  exists outcome,
    assembleAttestation assembleAttestationData fuel config db state headBlock
      slot shard
    = Some (outcome, state')
    /\ BeaconState.slot state' = Z.max (BeaconState.slot state) slot
    /\ (forall attestation,
          outcome = Returned attestation ->
          IndexedAttestation.custodyBit0Indices attestation = []
          /\ IndexedAttestation.custodyBit1Indices attestation = []
          /\ IndexedAttestation.signature attestation = None
          /\ assembleAttestationData config db state' headBlock shard
             = Returned (IndexedAttestation.data attestation))
    /\ (forall e,
          outcome = Thrown e ->
          assembleAttestationData config db state' headBlock shard = Thrown e).
Proof.
  intros Hrange Hfuel state'. unfold assembleAttestation.
  assert (advanceSlot fuel state slot = Some state') as ->.
  { destruct Hrange as [Hbehind|[Hlow Hhigh]].
    - rewrite advanceSlot_not_ahead by done. unfold state'.
      rewrite Z.max_l by lia. by rewrite setSlot_same.
    - by apply advanceSlot_max. }
  simpl.
  destruct (assembleAttestationData config db state' headBlock shard)
    as [data|e] eqn:Hdata.
  - eexists. split; [reflexivity|]. split; [reflexivity|]. split.
    + intros attestation [= <-]. simpl. done.
    + intros e [=].
  - eexists. split; [reflexivity|]. split; [reflexivity|]. split.
    + intros attestation [=].
    + intros e' [= <-]. done.
Qed.

End AttestationFactoryFacts.

Lemma C10_assembleAttestation_frame_witness :
  exists outcome,
    AttestationFactory.assembleAttestation Demo.dataFor 5 Demo.config tt
      Demo.genesisState Demo.genesisBlock 5 0
    = Some (outcome, BeaconState.setSlot (Z.max 0 5) Demo.genesisState)
    /\ BeaconState.slot (BeaconState.setSlot (Z.max 0 5) Demo.genesisState)
       = Z.max 0 5
    /\ (forall attestation,
          outcome = Returned attestation ->
          IndexedAttestation.custodyBit0Indices attestation = []
          /\ IndexedAttestation.custodyBit1Indices attestation = []
          /\ IndexedAttestation.signature attestation = None
          /\ Demo.dataFor Demo.config tt
               (BeaconState.setSlot (Z.max 0 5) Demo.genesisState)
               Demo.genesisBlock 0
             = Returned (IndexedAttestation.data attestation))
    /\ (forall e,
          outcome = Thrown e ->
          Demo.dataFor Demo.config tt
            (BeaconState.setSlot (Z.max 0 5) Demo.genesisState)
            Demo.genesisBlock 0
          = Thrown e).
Proof.
  apply (C10_assembleAttestation_frame Demo.dataFor Demo.config tt
           Demo.genesisState Demo.genesisBlock 5 0 5).
  - right. simpl. lia.
  - simpl. lia.
Defined.

(** From slot [2^53] the loop cannot reach slot [2^53 + 2], itself a
    number: the test of the loop holds, the increment gives [2^53] again,
    and the call does not come back, whatever the fuel. *)
Lemma C10_counterexample_loop_never_ends :
  Number.round (2 ^ 53 + 2) = 2 ^ 53 + 2
  /\ bool_decide (BeaconState.slot Demo.lateState < 2 ^ 53 + 2) = true
  /\ BeaconState.setSlot
       (Number.round (BeaconState.slot Demo.lateState + 1)) Demo.lateState
     = Demo.lateState
  /\ (forall fuel,
        AttestationFactory.assembleAttestation Demo.dataFor fuel Demo.config tt
          Demo.lateState Demo.genesisBlock (2 ^ 53 + 2) 0
        = None).
Proof.
  split; [vm_compute; reflexivity|]. split; [vm_compute; reflexivity|].
  split; [vm_compute; reflexivity|].
  intros fuel. unfold AttestationFactory.assembleAttestation.
  rewrite advanceSlot_stuck; [done| |]; vm_compute; reflexivity.
Qed.

(** * Properties of the chain orchestrator *)

Section ChainFacts.

Import Chain.

Context {FC OP : Type} `{!LMDGHOST FC} `{!OpPoolApi OP}.
Context (config : IBeaconConfig) (GENESIS_SLOT : Z).
Context (hashTreeRootBlock : BeaconBlock.t -> Root).
Context (hashTreeRootState : BeaconState.t -> Root).
Context (hashTreeRootDepositData : list Z -> Root).
Context (stateTransition :
           IBeaconConfig -> BeaconState.t -> BeaconBlock.t -> bool ->
           Outcome Error BeaconState.t).
Context (getCommittee :
           IBeaconConfig -> BeaconState.t -> AttestationData.t -> list nat).
Context (processSortedDeposits :
           IBeaconConfig -> list Deposit.t -> Z -> Z -> list Deposit.t).
Context (getEmptyBlock : BeaconBlock.t).

(** ** Attestations *)

Lemma no_bit_no_member {A} (members : list A) (bits : list bool) :
  bitCount bits = 0%nat ->
  filter (λ p : A * bool, p.2 = true) (zip members bits) = [].
Proof.
  unfold bitCount. revert members.
  induction bits as [|bit bits IH]; intros members Hcount.
  - by destruct members.
  - destruct members as [|m members]; [done|].
    destruct bit.
    + rewrite filter_cons_True in Hcount by done. discriminate.
    + rewrite filter_cons_False in Hcount by done.
      simpl. rewrite filter_cons_False by (simpl; congruence).
      by apply IH.
Qed.

Lemma getAttestingIndices_no_bit state data bits :
  bitCount bits = 0%nat ->
  getAttestingIndices getCommittee config state data bits = [].
Proof.
  intros Hcount. unfold getAttestingIndices.
  by rewrite no_bit_no_member.
Qed.

(** Feeding the pairs of [validators] and [balances] is feeding each
    validator with the balance looked up for it. *)
Lemma foldl_zip_fmap {A B S} (f : A -> B) (g : S -> A -> B -> S)
    (l : list A) (s : S) :
  foldl (λ s vb, g s vb.1 vb.2) s (zip l (f <$> l))
  = foldl (λ s v, g s v (f v)) s l.
Proof.
  revert s. induction l as [|v l IH]; intros s; [done|].
  simpl. apply IH.
Qed.

(** What [receiveAttestation] does on an initialized chain. *)
Lemma receiveAttestation_run (attestation : Attestation.t)
    (c : BeaconChain FC OP) (state : BeaconState.t) :
  latestState c = Some state ->
  receiveAttestation config getCommittee attestation c
  = (Returned tt,
     mkChain (latestState c)
       (foldl (λ fc index,
                 addAttestation
                   (AttestationData.beaconBlockRoot (Attestation.data attestation))
                   index (BeaconState.balances state !! index) fc)
              (forkChoice c)
              (getAttestingIndices getCommittee config state
                 (Attestation.data attestation)
                 (Attestation.aggregationBits attestation)))
       (db c) (opPool c)
       (emitted c ++ [processedAttestation attestation])
       (warned c) (transitioned c)).
Proof.
  intros Hstate. destruct c as [ls fc d pool em wa tr].
  simpl in Hstate. subst ls.
  unfold receiveAttestation.
  unfold mbind, Method_bind, bind, gets, deref, onForkChoice, emit. simpl.
  do 2 f_equal.
  apply (foldl_zip_fmap (λ index, BeaconState.balances state !! index)
           (λ fc v b, addAttestation _ v b fc)).
Qed.

(** C5, as the code has it.  [receiveAttestation] makes no check of the
    cardinality of the aggregation bits.  On an initialized chain, an
    attestation with no bit set adds no vote to the fork choice, and it is
    not rejected: the call returns and emits [processedAttestation]. *)
Theorem C5_no_bit_no_vote_but_processed (attestation : Attestation.t)
    (c : BeaconChain FC OP) (state : BeaconState.t) :
  latestState c = Some state ->
  bitCount (Attestation.aggregationBits attestation) = 0%nat ->
  receiveAttestation config getCommittee attestation c
  = (Returned tt,
     mkChain (latestState c) (forkChoice c) (db c) (opPool c)
       (emitted c ++ [processedAttestation attestation])
       (warned c) (transitioned c)).
Proof.
  intros Hstate Hcount.
  rewrite (receiveAttestation_run _ _ _ Hstate).
  by rewrite getAttestingIndices_no_bit.
Qed.

(** C6, as the code has it.  The weight handed to the fork choice for each
    attesting validator is [latestState.balances[index]], the validator's
    balance, not the effective balance of its registry entry. *)
Theorem C6_vote_weight_is_balance (attestation : Attestation.t)
    (c : BeaconChain FC OP) (state : BeaconState.t) :
  latestState c = Some state ->
  forkChoice (receiveAttestation config getCommittee attestation c).2
  = foldl (λ fc index,
             addAttestation
               (AttestationData.beaconBlockRoot (Attestation.data attestation))
               index (BeaconState.balances state !! index) fc)
          (forkChoice c)
          (getAttestingIndices getCommittee config state
             (Attestation.data attestation)
             (Attestation.aggregationBits attestation)).
Proof.
  intros Hstate. by rewrite (receiveAttestation_run _ _ _ Hstate).
Qed.

(** ** Blocks *)

Abbreviation runST :=
  (runStateTransition config hashTreeRootBlock hashTreeRootDepositData
     stateTransition processSortedDeposits).
Abbreviation recvBlock :=
  (receiveBlock config GENESIS_SLOT hashTreeRootBlock hashTreeRootDepositData
     stateTransition processSortedDeposits).
Abbreviation validBlock := (isValidBlock (FC:=FC) (OP:=OP) config GENESIS_SLOT).

(** Unfolds the plumbing of [Method]. *)
Ltac unfold_method :=
  unfold updateDepositMerkleTree, deref;
  unfold mbind, mret, Method_bind, Method_ret, bind, ret, throw, gets,
    onDb, onForkChoice, emit, warn, callStateTransition,
    callProcessBlockOperations.

(** Splits on the tests a method makes, one after the other. *)
Ltac split_tests :=
  repeat (cbn beta iota zeta delta
            [fst snd latestState forkChoice db opPool emitted warned
             transitioned negb];
          match goal with
          | |- context [bool_decide ?P] => destruct (bool_decide P) eqn:?
          | |- context [match getBlock ?r ?d with _ => _ end] =>
              destruct (getBlock r d) eqn:?
          | |- context [match merkleTrees ?d !! ?k with _ => _ end] =>
              destruct (merkleTrees d !! k) eqn:?
          end).

(** [isValidBlock] only reads. *)
Lemma isValidBlock_reads state block now (c : BeaconChain FC OP) :
  (validBlock state block now c).2 = c.
Proof.
  unfold isValidBlock. unfold_method.
  destruct (hasBlock _ _); simpl; [|done].
  destruct state; simpl; [|done].
  by destruct (bool_decide _).
Qed.

(** A block whose parent is not in the store is not valid. *)
Lemma isValidBlock_no_parent state block now (c : BeaconChain FC OP) :
  blocks (db c) !! BeaconBlock.parentRoot block = None ->
  validBlock state block now c = (Returned false, c).
Proof.
  intros Hparent. unfold isValidBlock, hasBlock. unfold_method.
  rewrite Hparent. rewrite bool_decide_eq_false_2; [done|].
  by intros [? ?].
Qed.

(** A valid block has its parent in the store. *)
Lemma isValidBlock_parent state block now (c : BeaconChain FC OP) :
  (validBlock state block now c).1 = Returned true ->
  is_Some (blocks (db c) !! BeaconBlock.parentRoot block).
Proof.
  unfold isValidBlock, hasBlock. unfold_method.
  destruct (bool_decide (is_Some _)) eqn:Hhas; simpl.
  - intros _. by apply bool_decide_eq_true in Hhas.
  - discriminate.
Qed.

(** A block whose parent is not in the store is rejected before anything
    else happens. *)
Lemma receiveBlock_no_parent block now (c : BeaconChain FC OP) :
  blocks (db c) !! BeaconBlock.parentRoot block = None ->
  recvBlock block now c = (Thrown AssertionError, c).
Proof.
  intros Hparent. unfold receiveBlock.
  unfold mbind at 1 2. unfold Method_bind, bind. unfold gets at 1.
  by rewrite isValidBlock_no_parent.
Qed.

(** When the engine throws, only the bad-block mark and the two logs
    change. *)
Lemma runStateTransition_thrown block state e (c : BeaconChain FC OP) :
  stateTransition config state block true = Thrown e ->
  runST block (Some state) c
  = (Returned None,
     mkChain (latestState c) (forkChoice c)
       (setBadBlockRoot (hashTreeRootBlock block) (db c)) (opPool c)
       (emitted c) (warned c ++ [hashTreeRootBlock block])
       (transitioned c ++ [block])).
Proof.
  intros Hengine. unfold runStateTransition. unfold_method. simpl.
  by rewrite Hengine.
Qed.

(** When the engine returns, whatever happens next, the block and the
    post-state are in the store, the latter under the state root the block
    claims, and no root is marked bad. *)
Lemma runStateTransition_returned block state newState (c : BeaconChain FC OP) :
  stateTransition config state block true = Returned newState ->
  exists o c',
    runST block (Some state) c = (o, c')
    /\ latestState c' = latestState c
    /\ blocks (db c') = <[hashTreeRootBlock block := block]> (blocks (db c))
    /\ states (db c')
       = <[BeaconBlock.stateRoot block := newState]> (states (db c))
    /\ badBlockRoots (db c') = badBlockRoots (db c)
    /\ chainHead (db c') = chainHead (db c)
    /\ opPool c' = opPool c
    /\ emitted c' = emitted c
    /\ warned c' = warned c
    /\ transitioned c' = transitioned c ++ [block].
Proof.
  intros Hengine. unfold runStateTransition. unfold_method. simpl.
  rewrite Hengine.
  split_tests; eexists _, _; (split; [reflexivity|]); simpl; done.
Qed.

(** [receiveBlock], phase by phase. *)
Lemma receiveBlock_phases block now (c : BeaconChain FC OP) :
  recvBlock block now c
  = match validBlock (latestState c) block now c with
    | (Returned true, c1) =>
        match runST block (latestState c1) c1 with
        | (Returned _, c2) =>
            match callProcessBlockOperations block c2 with
            | (Returned _, c3) => emit (processedBlock block) c3
            | (Thrown e, c3) => (Thrown e, c3)
            end
        | (Thrown e, c2) => (Thrown e, c2)
        end
    | (Returned false, c1) => (Thrown AssertionError, c1)
    | (Thrown e, c1) => (Thrown e, c1)
    end.
Proof.
  unfold receiveBlock, mbind, Method_bind, bind, gets. cbv beta.
  destruct (validBlock (latestState c) block now c) as [[[|]|e] c1];
    cbn beta iota delta [negb]; [|done..].
  destruct (runST block (latestState c1) c1) as [[o|e] c2]; [|done].
  destruct (callProcessBlockOperations block c2) as [[o'|e] c3]; done.
Qed.

(** The three ways [receiveBlock] can leave the store: untouched (the
    block was rejected before the engine ran), with one more bad root, or
    with one more block. *)
Lemma receiveBlock_cases block now (c : BeaconChain FC OP) :
  latestState (recvBlock block now c).2 = latestState c
  /\ ((recvBlock block now c).2 = c
      \/ (exists state e,
            latestState c = Some state
            /\ is_Some (blocks (db c) !! BeaconBlock.parentRoot block)
            /\ stateTransition config state block true = Thrown e
            /\ blocks (db (recvBlock block now c).2) = blocks (db c)
            /\ badBlockRoots (db (recvBlock block now c).2)
               = {[hashTreeRootBlock block]} ∪ badBlockRoots (db c))
      \/ (exists state newState,
            latestState c = Some state
            /\ is_Some (blocks (db c) !! BeaconBlock.parentRoot block)
            /\ stateTransition config state block true = Returned newState
            /\ blocks (db (recvBlock block now c).2)
               = <[hashTreeRootBlock block := block]> (blocks (db c))
            /\ badBlockRoots (db (recvBlock block now c).2)
               = badBlockRoots (db c))).
Proof.
  rewrite receiveBlock_phases.
  pose proof (isValidBlock_reads (latestState c) block now c) as Hreads.
  pose proof (isValidBlock_parent (latestState c) block now c) as Hparent.
  destruct (validBlock (latestState c) block now c) as [[[|]|e] c1];
    simpl in Hreads, Hparent; subst c1; simpl; try (split; [done|by left]).
  specialize (Hparent eq_refl).
  destruct (latestState c) as [state|] eqn:Hstate.
  2:{ unfold runStateTransition. unfold_method. simpl.
      split; [done|by left]. }
  destruct (stateTransition config state block true) as [newState|e] eqn:Hengine.
  - destruct (runStateTransition_returned block state newState c Hengine)
      as (o & c1 & -> & Hls & Hblocks & _ & Hbad & _ & _ & _ & _ & _).
    assert (Hkeep : forall c2 : BeaconChain FC OP,
               latestState c2 = latestState c1 -> db c2 = db c1 ->
               latestState c2 = Some state
               /\ (c2 = c
                   \/ (exists state0 e,
                         Some state = Some state0
                         /\ is_Some (blocks (db c) !! BeaconBlock.parentRoot block)
                         /\ stateTransition config state0 block true = Thrown e
                         /\ blocks (db c2) = blocks (db c)
                         /\ badBlockRoots (db c2)
                            = {[hashTreeRootBlock block]} ∪ badBlockRoots (db c))
                   \/ (exists state0 newState0,
                         Some state = Some state0
                         /\ is_Some (blocks (db c) !! BeaconBlock.parentRoot block)
                         /\ stateTransition config state0 block true
                            = Returned newState0
                         /\ blocks (db c2)
                            = <[hashTreeRootBlock block := block]> (blocks (db c))
                         /\ badBlockRoots (db c2) = badBlockRoots (db c)))).
    { intros c2 Hls2 Hdb2. split; [congruence|].
      right. right. exists state, newState. rewrite Hdb2. done. }
    destruct o as [o|e]; [|by apply Hkeep].
    unfold callProcessBlockOperations, emit.
    destruct (processBlockOperations block (opPool c1));
      by apply Hkeep.
  - rewrite (runStateTransition_thrown block state e c Hengine).
    assert (Hkeep : forall c2 : BeaconChain FC OP,
               latestState c2 = latestState c ->
               db c2 = setBadBlockRoot (hashTreeRootBlock block) (db c) ->
               latestState c2 = Some state
               /\ (c2 = c
                   \/ (exists state0 e0,
                         Some state = Some state0
                         /\ is_Some (blocks (db c) !! BeaconBlock.parentRoot block)
                         /\ stateTransition config state0 block true = Thrown e0
                         /\ blocks (db c2) = blocks (db c)
                         /\ badBlockRoots (db c2)
                            = {[hashTreeRootBlock block]} ∪ badBlockRoots (db c))
                   \/ (exists state0 newState0,
                         Some state = Some state0
                         /\ is_Some (blocks (db c) !! BeaconBlock.parentRoot block)
                         /\ stateTransition config state0 block true
                            = Returned newState0
                         /\ blocks (db c2)
                            = <[hashTreeRootBlock block := block]> (blocks (db c))
                         /\ badBlockRoots (db c2) = badBlockRoots (db c)))).
    { intros c2 Hls2 Hdb2. split; [congruence|].
      right. left. exists state, e. rewrite Hdb2. done. }
    unfold callProcessBlockOperations, emit. cbn [opPool].
    destruct (processBlockOperations block (opPool c));
      by apply Hkeep.
Qed.

(** Attestations leave the latest state and the store alone. *)
Lemma receiveAttestation_store attestation (c : BeaconChain FC OP) :
  latestState (receiveAttestation config getCommittee attestation c).2
  = latestState c
  /\ db (receiveAttestation config getCommittee attestation c).2 = db c.
Proof.
  destruct (latestState c) as [state|] eqn:Hstate.
  - by rewrite (receiveAttestation_run _ _ _ Hstate).
  - unfold receiveAttestation. unfold_method. by rewrite Hstate.
Qed.

(** The fork-choice rule writes the [head] key only. *)
Lemma applyForkChoiceRule_store (c : BeaconChain FC OP) :
  latestState (applyForkChoiceRule c).2 = latestState c
  /\ blocks (db (applyForkChoiceRule c).2) = blocks (db c)
  /\ badBlockRoots (db (applyForkChoiceRule c).2) = badBlockRoots (db c).
Proof.
  unfold applyForkChoiceRule. unfold_method. simpl.
  destruct (getChainHeadRoot (db c)) as [currentRoot|]; simpl; [|done].
  destruct (bool_decide (currentRoot = head (forkChoice c))); simpl; [done|].
  by destruct (getBlock (head (forkChoice c)) (db c)).
Qed.

Section Quarantine.

(** [hashTreeRoot] has no collisions on blocks, and no block hashes to the
    parent root of the genesis block. *)
Hypothesis hash_collision_free :
  forall b1 b2, hashTreeRootBlock b1 = hashTreeRootBlock b2 -> b1 = b2.
Hypothesis genesis_parent_is_no_block :
  forall b, hashTreeRootBlock b <> BeaconBlock.parentRoot getEmptyBlock.

Variable genesisState : BeaconState.t.

Abbreviation inv :=
  (quarantine (FC:=FC) (OP:=OP) config hashTreeRootBlock hashTreeRootState
     stateTransition getEmptyBlock genesisState).
Abbreviation genesisBlock :=
  (genesisBlockOf hashTreeRootState getEmptyBlock genesisState).
Abbreviation serveRequests :=
  (serveAll (FC:=FC) (OP:=OP) config GENESIS_SLOT hashTreeRootBlock
     hashTreeRootDepositData stateTransition getCommittee
     processSortedDeposits).

(** The store right after [initializeBeaconChain] on an empty store. *)
Lemma genesisChain_store (fc : FC) (pool : OP) merkleTree :
  latestState (genesisChain hashTreeRootBlock hashTreeRootState getEmptyBlock
                 fc pool genesisState merkleTree) = Some genesisState
  /\ blocks (db (genesisChain hashTreeRootBlock hashTreeRootState getEmptyBlock
                   fc pool genesisState merkleTree))
     = {[hashTreeRootBlock genesisBlock := genesisBlock]}
  /\ badBlockRoots (db (genesisChain hashTreeRootBlock hashTreeRootState
                          getEmptyBlock fc pool genesisState merkleTree))
     = ∅.
Proof. split; [|split]; reflexivity. Qed.

Lemma quarantine_genesis fc pool merkleTree :
  inv (genesisChain hashTreeRootBlock hashTreeRootState getEmptyBlock
         fc pool genesisState merkleTree).
Proof.
  destruct (genesisChain_store fc pool merkleTree) as (Hls & Hblocks & Hbad).
  unfold quarantine. rewrite Hls, Hblocks, Hbad. clear Hls Hblocks Hbad.
  split; [done|]. split.
  - intros r b Hrb.
    apply lookup_singleton_Some in Hrb as [<- <-].
    split; [done|]. by left.
  - intros r Hr. clear -Hr. by apply not_elem_of_empty in Hr.
Qed.

(** The store keeps what it holds: stored blocks stay stored. *)
Lemma stored_after_insert (m : gmap (list Z) BeaconBlock.t) r b k :
  is_Some (m !! k) -> is_Some (<[r := b]> m !! k).
Proof.
  intros [x Hx]. destruct (decide (r = k)) as [->|Hne].
  - rewrite lookup_insert_eq. eauto.
  - rewrite lookup_insert_ne by done. eauto.
Qed.

Lemma quarantine_receiveBlock block now (c : BeaconChain FC OP) :
  inv c -> inv (recvBlock block now c).2.
Proof.
  intros (Hls & Hstored & Hbad).
  destruct (receiveBlock_cases block now c) as [Hls' Hcases].
  destruct Hcases as [->|[Hcase|Hcase]]; [done| |].
  - destruct Hcase as (state & e & Hstate & Hparent & Hengine & Hblocks & Hbad').
    assert (state = genesisState) as -> by congruence.
    split; [congruence|]. rewrite Hblocks, Hbad'. split; [exact Hstored|].
    intros r Hr. apply elem_of_union in Hr as [Hr|Hr]; [|by apply Hbad].
    apply elem_of_singleton in Hr as ->.
    exists block. by rewrite Hengine.
  - destruct Hcase as (state & newState & Hstate & Hparent & Hengine
                       & Hblocks & Hbad').
    assert (state = genesisState) as -> by congruence.
    split; [congruence|]. rewrite Hblocks, Hbad'. split.
    + intros r b Hrb.
      apply lookup_insert_Some in Hrb as [[<- <-]|[_ Hrb]].
      * split; [done|]. right. rewrite Hengine. split; [done|].
        by apply stored_after_insert.
      * destruct (Hstored r b Hrb) as [Hroot [Hgen|[Hok Hpar]]].
        -- split; [done|]. by left.
        -- split; [done|]. right. split; [done|].
           by apply stored_after_insert.
    + intros r Hr. destruct (Hbad r Hr) as (b & Hroot & Hfail & Hpar).
      exists b. split; [done|]. split; [done|].
      by apply stored_after_insert.
Qed.

Lemma quarantine_serve request (c : BeaconChain FC OP) :
  inv c ->
  inv (serve config GENESIS_SLOT hashTreeRootBlock hashTreeRootDepositData
         stateTransition getCommittee processSortedDeposits request c).2.
Proof.
  intros Hinv. destruct request as [block now|attestation|]; simpl.
  - by apply quarantine_receiveBlock.
  - destruct (receiveAttestation_store attestation c) as [Hls Hdb].
    unfold quarantine. rewrite Hls, Hdb. exact Hinv.
  - destruct (applyForkChoiceRule_store c) as (Hls & Hblocks & Hbad).
    unfold quarantine. rewrite Hls, Hblocks, Hbad. exact Hinv.
Qed.

Lemma quarantine_serveAll requests (c : BeaconChain FC OP) :
  inv c -> inv (serveRequests requests c).
Proof.
  revert c. induction requests as [|request requests IH]; intros c Hinv.
  - exact Hinv.
  - simpl. apply IH. by apply quarantine_serve.
Qed.

(** Under the invariant no bad root is the root of a stored block. *)
Lemma quarantine_bad_not_stored (c : BeaconChain FC OP) r :
  inv c -> r ∈ badBlockRoots (db c) -> blocks (db c) !! r = None.
Proof.
  intros (Hls & Hstored & Hbad) Hr.
  destruct (Hbad r Hr) as (b & Hroot & Hfail & [p Hpar]).
  destruct (blocks (db c) !! r) as [b'|] eqn:Hrb; [|done].
  destruct (Hstored r b' Hrb) as [Hroot' [Hgen|[Hok _]]].
  - assert (b' = b) as -> by (apply hash_collision_free; congruence).
    subst b. simpl in Hpar.
    destruct (Hstored _ p Hpar) as [Hp _].
    by apply genesis_parent_is_no_block in Hp.
  - assert (b' = b) as -> by (apply hash_collision_free; congruence).
    congruence.
Qed.

(** Under the invariant a block that descends from a block missing from
    the store is missing too, and so is its parent. *)
Lemma quarantine_descendant_not_stored (c : BeaconChain FC OP) b a :
  inv c ->
  descends hashTreeRootBlock b a ->
  blocks (db c) !! hashTreeRootBlock a = None ->
  blocks (db c) !! BeaconBlock.parentRoot b = None
  /\ blocks (db c) !! hashTreeRootBlock b = None.
Proof.
  intros (Hls & Hstored & Hbad) Hdesc Ha.
  assert (Hchild : forall b,
             blocks (db c) !! BeaconBlock.parentRoot b = None ->
             (exists m, BeaconBlock.parentRoot b = hashTreeRootBlock m) ->
             blocks (db c) !! hashTreeRootBlock b = None).
  { intros b0 Hpar [m Hm].
    destruct (blocks (db c) !! hashTreeRootBlock b0) as [b'|] eqn:Hrb; [|done].
    destruct (Hstored _ b' Hrb) as [Hroot' [Hgen|[_ [p Hp]]]].
    - apply hash_collision_free in Hroot'. subst b'. subst b0.
      simpl in Hm. symmetry in Hm.
      by apply genesis_parent_is_no_block in Hm.
    - apply hash_collision_free in Hroot'. subst b'. congruence. }
  induction Hdesc as [b a Hpar|b m a Hpar Hdesc IH].
  - assert (blocks (db c) !! BeaconBlock.parentRoot b = None) as Hnone
        by (by rewrite Hpar).
    split; [done|]. apply Hchild; eauto.
  - destruct (IH Ha) as [_ Hm].
    assert (blocks (db c) !! BeaconBlock.parentRoot b = None) as Hnone
        by (by rewrite Hpar).
    split; [done|]. apply Hchild; eauto.
Qed.


(** X7.  After one [initializeBeaconChain] on an empty store and any
    [receiveBlock], [receiveAttestation] and [applyForkChoiceRule] requests
    since, the store is closed under parents: a stored block sits under its
    own root, and unless it is the genesis block the engine accepted it
    from the genesis state and its parent is stored too. *)
Theorem genesis_run_store_is_parent_closed
    (fc : FC) (pool : OP) (merkleTree : list (Z * list Z))
    (requests : list Request) (r : Root) (b : BeaconBlock.t) :
  blocks (db (serveRequests requests
                (genesisChain hashTreeRootBlock hashTreeRootState
                   getEmptyBlock fc pool genesisState merkleTree))) !! r
  = Some b ->
  hashTreeRootBlock b = r
  /\ (b = genesisBlock
      \/ (isThrown (stateTransition config genesisState b true) = false
          /\ is_Some
               (blocks (db (serveRequests requests
                              (genesisChain hashTreeRootBlock hashTreeRootState
                                 getEmptyBlock fc pool genesisState merkleTree)))
                !! BeaconBlock.parentRoot b))).
Proof.
  intros Hstored.
  destruct (quarantine_serveAll requests _
              (quarantine_genesis fc pool merkleTree)) as (_ & Hblocks & _).
  by apply Hblocks.
Qed.

(** X8.  After one [initializeBeaconChain] on an empty store and any
    [receiveBlock], [receiveAttestation] and [applyForkChoiceRule] requests
    since, with a collision-free [hashTreeRoot], no root is both marked bad
    and the root of a stored block. *)
Theorem genesis_run_bad_roots_not_stored
    (fc : FC) (pool : OP) (merkleTree : list (Z * list Z))
    (requests : list Request) (r : Root) :
  r ∈ badBlockRoots
        (db (serveRequests requests
               (genesisChain hashTreeRootBlock hashTreeRootState
                  getEmptyBlock fc pool genesisState merkleTree))) ->
  getBlock r
    (db (serveRequests requests
           (genesisChain hashTreeRootBlock hashTreeRootState
              getEmptyBlock fc pool genesisState merkleTree)))
  = None.
Proof.
  intros Hbad. apply quarantine_bad_not_stored; [|done].
  apply quarantine_serveAll, quarantine_genesis.
Qed.

End Quarantine.

(** ** State roots, persistence, checkpoints and the head *)

(** C1, as the code has it.  [runStateTransition] does not compare
    [hashTreeRoot] of the post-state with the state root the block claims.
    It calls [stateTransition(config, state, block, true)] and tells the
    two outcomes apart.  A throw, whatever its reason, puts the root of the
    block in the bad-block set and stores nothing else.  A post-state that
    is returned is stored under the state root the block claims, whatever
    its own root, the block is stored, and the bad-block set stays as it
    was. *)
Theorem C1_state_root_left_to_engine (block : BeaconBlock.t)
    (state : BeaconState.t) (c : BeaconChain FC OP) :
  (forall e,
      stateTransition config state block true = Thrown e ->
      runST block (Some state) c
      = (Returned None,
         mkChain (latestState c) (forkChoice c)
           (setBadBlockRoot (hashTreeRootBlock block) (db c)) (opPool c)
           (emitted c) (warned c ++ [hashTreeRootBlock block])
           (transitioned c ++ [block])))
  /\ (forall newState,
        stateTransition config state block true = Returned newState ->
        getBlock (hashTreeRootBlock block) (db (runST block (Some state) c).2)
        = Some block
        /\ getState (BeaconBlock.stateRoot block)
             (db (runST block (Some state) c).2)
           = Some newState
        /\ badBlockRoots (db (runST block (Some state) c).2)
           = badBlockRoots (db c)
        /\ warned (runST block (Some state) c).2 = warned c).
Proof.
  split.
  - intros e Hengine. by apply (runStateTransition_thrown block state e).
  - intros newState Hengine.
    destruct (runStateTransition_returned block state newState c Hengine)
      as (o & c' & -> & _ & Hblocks & Hstates & Hbad & _ & _ & _ & Hwarned & _).
    unfold getBlock, getState. simpl. rewrite Hblocks, Hstates.
    by rewrite !lookup_insert_eq.
Qed.

(** X22.  [runStateTransition] leaves the finalized block and state marks
    of the store as they were, and makes no [setFinalized] call on the fork
    choice, unless the engine returned a post-state that crossed into a
    later epoch than the pre-state and whose finalized epoch is beyond the
    finalized epoch of the pre-state.  The comparison is with the pre-state
    handed in, not with the mark in the store. *)
Theorem finalized_marks_only_when_newly_finalized (block : BeaconBlock.t)
    (state : BeaconState.t) (c : BeaconChain FC OP) :
  (forall e,
      stateTransition config state block true = Thrown e ->
      finalizedBlock (db (runST block (Some state) c).2) = finalizedBlock (db c)
      /\ finalizedState (db (runST block (Some state) c).2)
         = finalizedState (db c)
      /\ forkChoice (runST block (Some state) c).2 = forkChoice c)
  /\ (forall newState,
        stateTransition config state block true = Returned newState ->
        newlyFinalized config state newState = false ->
        finalizedBlock (db (runST block (Some state) c).2)
        = finalizedBlock (db c)
        /\ finalizedState (db (runST block (Some state) c).2)
           = finalizedState (db c)
        /\ (forkChoice (runST block (Some state) c).2
            = addBlock (BeaconBlock.slot block) (hashTreeRootBlock block)
                (BeaconBlock.parentRoot block) (forkChoice c)
            \/ forkChoice (runST block (Some state) c).2
               = setJustified (hashTreeRootBlock block)
                   (addBlock (BeaconBlock.slot block) (hashTreeRootBlock block)
                      (BeaconBlock.parentRoot block) (forkChoice c)))).
Proof.
  split.
  - intros e Hengine.
    by rewrite (runStateTransition_thrown block state e c Hengine).
  - intros newState Hengine. unfold newlyFinalized.
    unfold runStateTransition. unfold_method. simpl. rewrite Hengine.
    split_tests; simpl; intros Hnf; try discriminate Hnf; auto.
Qed.

(** C7, as the code has it.  A block that fails [isValidBlock] changes
    nothing.  When the engine throws, the bad-block root is the one write:
    blocks, states, checkpoint marks and fork choice stay as they were.
    When the engine returns, the block and its post-state are written
    first and stay written whatever the later steps do; the checkpoint
    marks are separate, later writes. *)
Theorem C7_writes_by_phase (block : BeaconBlock.t) (now : Z)
    (state : BeaconState.t) (c : BeaconChain FC OP) :
  latestState c = Some state ->
  ((validBlock (Some state) block now c).1 = Returned false ->
   recvBlock block now c = (Thrown AssertionError, c))
  /\ (forall e,
        (validBlock (Some state) block now c).1 = Returned true ->
        stateTransition config state block true = Thrown e ->
        db (recvBlock block now c).2
        = setBadBlockRoot (hashTreeRootBlock block) (db c)
        /\ forkChoice (recvBlock block now c).2 = forkChoice c)
  /\ (forall newState,
        (validBlock (Some state) block now c).1 = Returned true ->
        stateTransition config state block true = Returned newState ->
        blocks (db (recvBlock block now c).2)
        = <[hashTreeRootBlock block := block]> (blocks (db c))
        /\ states (db (recvBlock block now c).2)
           = <[BeaconBlock.stateRoot block := newState]> (states (db c))).
Proof.
  intros Hstate.
  pose proof (isValidBlock_reads (Some state) block now c) as Hreads.
  rewrite receiveBlock_phases, Hstate.
  destruct (validBlock (Some state) block now c) as [o c1].
  simpl in Hreads. subst c1. simpl. rewrite Hstate.
  split; [|split].
  - by intros ->.
  - intros e -> Hengine.
    rewrite (runStateTransition_thrown block state e c Hengine).
    unfold callProcessBlockOperations, emit. cbn [opPool].
    by destruct (processBlockOperations block (opPool c)).
  - intros newState -> Hengine.
    destruct (runStateTransition_returned block state newState c Hengine)
      as (o & c1 & -> & _ & Hblocks & Hstates & _).
    destruct o as [o|e]; [|done].
    unfold callProcessBlockOperations, emit.
    by destruct (processBlockOperations block (opPool c1)).
Qed.

(** C8, as the code has it.  When the head chosen by the fork choice is
    the stored head, [applyForkChoiceRule] changes nothing and emits
    nothing.  When it differs and its block is in the store, the one
    change is a write of the [head] key, carrying that block and its
    state root; nothing is emitted. *)
Theorem C8_head_rule (c : BeaconChain FC OP) (currentRoot : Root) :
  getChainHeadRoot (db c) = Some currentRoot ->
  (head (forkChoice c) = currentRoot ->
   applyForkChoiceRule c = (Returned tt, c))
  /\ (forall block,
        head (forkChoice c) <> currentRoot ->
        getBlock (head (forkChoice c)) (db c) = Some block ->
        exists root,
          applyForkChoiceRule c
          = (Returned tt,
             mkChain (latestState c) (forkChoice c)
               (setChainHeadRoots root (BeaconBlock.stateRoot block) block (db c))
               (opPool c) (emitted c) (warned c) (transitioned c))).
Proof.
  intros Hcurrent. unfold applyForkChoiceRule. unfold_method. simpl.
  rewrite Hcurrent. simpl. split.
  - intros Hsame. by rewrite bool_decide_eq_true_2.
  - intros block Hdiff Hblock.
    rewrite bool_decide_eq_false_2 by done. rewrite Hblock.
    by exists currentRoot.
Qed.

(** ** Further properties of the block path *)

(** X1.  [isValidBlock] on an initialized chain answers [true] exactly when the
    parent of the block is in the store and the wall clock, in
    milliseconds, has reached the start of the block's slot; it never
    throws and never writes. *)
Theorem isValidBlock_parent_and_clock (state : BeaconState.t)
    (block : BeaconBlock.t) (now : Z) (c : BeaconChain FC OP) :
  validBlock (Some state) block now c
  = (Returned
       (bool_decide (is_Some (blocks (db c) !! BeaconBlock.parentRoot block))
        && bool_decide
             (1000 * (BeaconState.genesisTime state
                      + (BeaconBlock.slot block - GENESIS_SLOT)
                        * SECONDS_PER_SLOT config)
              <= now)),
     c).
Proof.
  unfold isValidBlock, hasBlock. unfold_method.
  destruct (bool_decide (is_Some _)); simpl; [|done].
  set (T := BeaconState.genesisTime state
            + (BeaconBlock.slot block - GENESIS_SLOT) * SECONDS_PER_SLOT config).
  destruct (decide (1000 * T <= now)) as [Hreached|Hearly].
  - rewrite (bool_decide_eq_true_2 (1000 * T <= now)) by done.
    rewrite bool_decide_eq_false_2; [done|].
    assert (T <= now `div` 1000) by (apply Z.div_le_lower_bound; lia). lia.
  - rewrite (bool_decide_eq_false_2 (1000 * T <= now)) by done.
    rewrite bool_decide_eq_true_2; [done|].
    apply Z.div_lt_upper_bound; lia.
Qed.

(** X2.  Before the chain has a latest state, [receiveBlock] throws on every
    block and leaves the chain object as it was: the assertion fails when
    the parent is not in the store, and reading [state.genesisTime] of
    [null] fails when it is.  The engine is not called. *)
Theorem receiveBlock_before_initialization (block : BeaconBlock.t) (now : Z)
    (c : BeaconChain FC OP) :
  latestState c = None ->
  recvBlock block now c
  = (Thrown (if bool_decide (is_Some (blocks (db c)
                                        !! BeaconBlock.parentRoot block))
             then TypeError else AssertionError),
     c).
Proof.
  intros Hnone. rewrite receiveBlock_phases. rewrite Hnone.
  unfold isValidBlock, hasBlock. unfold_method.
  by destruct (bool_decide (is_Some _)).
Qed.

(** X3.  A block the engine refuses is still handed to the operation pool and
    announced: when the pool returns, [receiveBlock] returns and emits
    [processedBlock], with the root of the block marked bad. *)
Theorem receiveBlock_announces_bad_block (block : BeaconBlock.t) (now : Z)
    (state : BeaconState.t) (e : Error) (pool' : OP) (c : BeaconChain FC OP) :
  latestState c = Some state ->
  (validBlock (Some state) block now c).1 = Returned true ->
  stateTransition config state block true = Thrown e ->
  processBlockOperations block (opPool c) = Returned pool' ->
  recvBlock block now c
  = (Returned tt,
     mkChain (latestState c) (forkChoice c)
       (setBadBlockRoot (hashTreeRootBlock block) (db c)) pool'
       (emitted c ++ [processedBlock block])
       (warned c ++ [hashTreeRootBlock block])
       (transitioned c ++ [block])).
Proof.
  intros Hstate Hvalid Hengine Hpool.
  pose proof (isValidBlock_reads (Some state) block now c) as Hreads.
  rewrite receiveBlock_phases, Hstate.
  destruct (validBlock (Some state) block now c) as [o c1].
  simpl in Hreads, Hvalid. subst c1 o. rewrite Hstate.
  rewrite (runStateTransition_thrown block state e c Hengine).
  unfold callProcessBlockOperations, emit. cbn [opPool].
  rewrite Hpool. simpl. by rewrite ?Hstate.
Qed.

(** X4.  One [receiveBlock] calls the engine at most once, and emits
    [processedBlock] exactly when it returns: either the block is turned
    away with the chain as it was, or the engine is called once and then
    the call returns with the event emitted or throws with none. *)
Theorem receiveBlock_one_engine_call (block : BeaconBlock.t) (now : Z)
    (c : BeaconChain FC OP) :
  (isThrown (recvBlock block now c).1 = true
   /\ (recvBlock block now c).2 = c)
  \/ (transitioned (recvBlock block now c).2 = transitioned c ++ [block]
      /\ ((recvBlock block now c).1 = Returned tt
          /\ emitted (recvBlock block now c).2
             = emitted c ++ [processedBlock block]
          \/ isThrown (recvBlock block now c).1 = true
             /\ emitted (recvBlock block now c).2 = emitted c)).
Proof.
  rewrite receiveBlock_phases.
  pose proof (isValidBlock_reads (latestState c) block now c) as Hreads.
  destruct (validBlock (latestState c) block now c) as [[[|]|e] c1];
    simpl in Hreads; subst c1; [|by left..].
  destruct (latestState c) as [state|] eqn:Hstate.
  2:{ left. unfold runStateTransition. unfold_method. by simpl. }
  right.
  destruct (stateTransition config state block true) as [newState|e] eqn:Hengine.
  - destruct (runStateTransition_returned block state newState c Hengine)
      as (o & c1 & -> & _ & _ & _ & _ & _ & _ & Hemitted & _ & Htrans).
    destruct o as [o|e]; [|by split; [|right]].
    unfold callProcessBlockOperations, emit.
    destruct (processBlockOperations block (opPool c1)); simpl.
    + split; [done|]. left. by rewrite Hemitted.
    + split; [done|]. by right.
  - rewrite (runStateTransition_thrown block state e c Hengine).
    unfold callProcessBlockOperations, emit. cbn [opPool].
    destruct (processBlockOperations block (opPool c)); simpl.
    + split; [done|]. by left.
    + split; [done|]. by right.
Qed.

(** X5.  No request changes [this.latestState]: the post-state that
    [runStateTransition] returns is dropped by [receiveBlock], so every
    block is run from the state the chain was started with. *)
Theorem serveAll_keeps_latestState (requests : list Request)
    (c : BeaconChain FC OP) :
  latestState
    (serveAll config GENESIS_SLOT hashTreeRootBlock hashTreeRootDepositData
       stateTransition getCommittee processSortedDeposits requests c)
  = latestState c.
Proof.
  revert c. induction requests as [|request requests IH]; intros c; [done|].
  simpl. rewrite IH.
  destruct request as [block now|attestation|]; simpl.
  - apply receiveBlock_cases.
  - apply receiveAttestation_store.
  - apply applyForkChoiceRule_store.
Qed.

(** X6.  The store only grows: whatever is served, a stored block stays
    stored and a root marked bad stays marked. *)
Theorem serveAll_store_grows (requests : list Request)
    (c : BeaconChain FC OP) (r : Root) :
  (is_Some (blocks (db c) !! r) ->
   is_Some (blocks (db (serveAll config GENESIS_SLOT hashTreeRootBlock
                          hashTreeRootDepositData stateTransition getCommittee
                          processSortedDeposits requests c)) !! r))
  /\ (r ∈ badBlockRoots (db c) ->
      r ∈ badBlockRoots
            (db (serveAll config GENESIS_SLOT hashTreeRootBlock
                   hashTreeRootDepositData stateTransition getCommittee
                   processSortedDeposits requests c))).
Proof.
  revert c. induction requests as [|request requests IH]; intros c; [done|].
  simpl.
  set (c1 := (serve config GENESIS_SLOT hashTreeRootBlock
                hashTreeRootDepositData stateTransition getCommittee
                processSortedDeposits request c).2).
  assert (Hstep : (is_Some (blocks (db c) !! r) ->
                   is_Some (blocks (db c1) !! r))
                  /\ (r ∈ badBlockRoots (db c) -> r ∈ badBlockRoots (db c1))).
  { subst c1. destruct request as [block now|attestation|]; simpl.
    - destruct (receiveBlock_cases block now c) as [_ [->|[Hcase|Hcase]]];
        [done| |].
      + destruct Hcase as (_ & _ & _ & _ & _ & -> & ->).
        split; [done|]. intros Hr. apply elem_of_union. by right.
      + destruct Hcase as (_ & _ & _ & _ & _ & -> & ->).
        split; [|done]. intros [b Hb].
        destruct (decide (hashTreeRootBlock block = r)) as [->|Hne].
        * rewrite lookup_insert_eq. eauto.
        * rewrite lookup_insert_ne by done. eauto.
    - destruct (receiveAttestation_store attestation c) as [_ ->]. done.
    - destruct (applyForkChoiceRule_store c) as (_ & -> & ->). done. }
  destruct Hstep as [Hblocks Hbad]. destruct (IH c1) as [IHblocks IHbad].
  split; auto.
Qed.

(** [applyForkChoiceRule], outcome by outcome. *)
Lemma applyForkChoiceRule_outcomes (c : BeaconChain FC OP) :
  applyForkChoiceRule c
  = match getChainHeadRoot (db c) with
    | None => (Thrown TypeError, c)
    | Some currentRoot =>
        if bool_decide (currentRoot = head (forkChoice c)) then (Returned tt, c)
        else
          match getBlock (head (forkChoice c)) (db c) with
          | None => (Thrown TypeError, c)
          | Some block =>
              (Returned tt,
               mkChain (latestState c) (forkChoice c)
                 (setChainHeadRoots currentRoot (BeaconBlock.stateRoot block)
                    block (db c))
                 (opPool c) (emitted c) (warned c) (transitioned c))
          end
    end.
Proof.
  unfold applyForkChoiceRule. unfold_method. simpl.
  destruct (getChainHeadRoot (db c)) as [currentRoot|]; simpl; [|done].
  destruct (bool_decide (currentRoot = head (forkChoice c))); simpl; [done|].
  by destruct (getBlock (head (forkChoice c)) (db c)).
Qed.

(** X11.  [applyForkChoiceRule] fails on a missing key and then writes nothing:
    with no head root in the store, and with a fork-choice head that is
    not the stored head and whose block is not in the store, it throws and
    the chain is as it was. *)
Theorem applyForkChoiceRule_missing_key (c : BeaconChain FC OP) :
  (getChainHeadRoot (db c) = None ->
   isThrown (applyForkChoiceRule c).1 = true
   /\ (applyForkChoiceRule c).2 = c)
  /\ (forall currentRoot,
        getChainHeadRoot (db c) = Some currentRoot ->
        head (forkChoice c) <> currentRoot ->
        getBlock (head (forkChoice c)) (db c) = None ->
        isThrown (applyForkChoiceRule c).1 = true
        /\ (applyForkChoiceRule c).2 = c).
Proof.
  rewrite applyForkChoiceRule_outcomes. split.
  - by intros ->.
  - intros currentRoot -> Hdiff Hblock.
    rewrite bool_decide_eq_false_2 by done. by rewrite Hblock.
Qed.

(** X12.  [applyForkChoiceRule] never changes the head root that
    [getChainHeadRoot] answers: the root it writes is the one it read.  So
    running it again does what the first run did and leaves the chain as
    the first run left it. *)
Theorem applyForkChoiceRule_keeps_head_root (c : BeaconChain FC OP) :
  getChainHeadRoot (db (applyForkChoiceRule c).2) = getChainHeadRoot (db c)
  /\ applyForkChoiceRule (applyForkChoiceRule c).2 = applyForkChoiceRule c.
Proof.
  rewrite (applyForkChoiceRule_outcomes c).
  destruct (getChainHeadRoot (db c)) as [currentRoot|] eqn:Hcur.
  2:{ simpl. rewrite applyForkChoiceRule_outcomes. by rewrite Hcur. }
  destruct (bool_decide (currentRoot = head (forkChoice c))) eqn:Hsame.
  { simpl. rewrite applyForkChoiceRule_outcomes. by rewrite Hcur, Hsame. }
  destruct (getBlock (head (forkChoice c)) (db c)) as [block|] eqn:Hblock.
  2:{ simpl. rewrite applyForkChoiceRule_outcomes.
      by rewrite Hcur, Hsame, Hblock. }
  cbn [snd db]. split; [done|].
  rewrite applyForkChoiceRule_outcomes. cbn [db forkChoice].
  change (getChainHeadRoot
            (setChainHeadRoots currentRoot (BeaconBlock.stateRoot block) block
               (db c)))
    with (Some currentRoot).
  change (getBlock (head (forkChoice c))
            (setChainHeadRoots currentRoot (BeaconBlock.stateRoot block) block
               (db c)))
    with (getBlock (head (forkChoice c)) (db c)).
  cbn beta iota. rewrite Hsame, Hblock. reflexivity.
Qed.

(** ** Further properties of the checkpoint marks *)

(** X9.  [runStateTransition] leaves the justified block and state marks as
    they were, and makes no [setJustified] call, unless the engine returned
    a post-state that crossed into a later epoch than the pre-state and
    whose justified epoch is beyond that of the pre-state: when the engine
    throws the fork choice is not called at all, and otherwise it is told
    [addBlock], followed at most by [setFinalized]. *)
Theorem justified_marks_only_when_newly_justified (block : BeaconBlock.t)
    (state : BeaconState.t) (c : BeaconChain FC OP) :
  (forall e,
      stateTransition config state block true = Thrown e ->
      justifiedBlock (db (runST block (Some state) c).2) = justifiedBlock (db c)
      /\ justifiedState (db (runST block (Some state) c).2)
         = justifiedState (db c)
      /\ forkChoice (runST block (Some state) c).2 = forkChoice c)
  /\ (forall newState,
        stateTransition config state block true = Returned newState ->
        Marks.newlyJustified config state newState = false ->
        justifiedBlock (db (runST block (Some state) c).2)
        = justifiedBlock (db c)
        /\ justifiedState (db (runST block (Some state) c).2)
           = justifiedState (db c)
        /\ (forkChoice (runST block (Some state) c).2
            = addBlock (BeaconBlock.slot block) (hashTreeRootBlock block)
                (BeaconBlock.parentRoot block) (forkChoice c)
            \/ forkChoice (runST block (Some state) c).2
               = setFinalized (hashTreeRootBlock block)
                   (addBlock (BeaconBlock.slot block) (hashTreeRootBlock block)
                      (BeaconBlock.parentRoot block) (forkChoice c)))).
Proof.
  split.
  - intros e Hengine.
    by rewrite (runStateTransition_thrown block state e c Hengine).
  - intros newState Hengine. unfold Marks.newlyJustified.
    unfold runStateTransition. unfold_method. simpl. rewrite Hengine.
    split_tests; simpl; intros Hnj; try discriminate Hnj; auto.
Qed.

(** X10.  What a newly finalizing block writes.  When the post-state is newly
    finalized, its finalized checkpoint names a block [finalizedBlock] that
    is in the store once the incoming block is, and the justified step
    before it does not fail, then [runStateTransition] returns the
    post-state; the finalized block mark holds the root of the incoming
    block and the incoming block, not the checkpoint's; the finalized state
    mark holds the state root of [finalizedBlock] with the state the store
    has under it; and the fork choice is told [setFinalized] with the root
    of the incoming block last. *)
Theorem finalized_marks_name_incoming_block (block finalizedBlock : BeaconBlock.t)
    (state newState : BeaconState.t) (c : BeaconChain FC OP) :
  stateTransition config state block true = Returned newState ->
  newlyFinalized config state newState = true ->
  (Marks.newlyJustified config state newState = true ->
   is_Some (<[hashTreeRootBlock block := block]> (blocks (db c))
            !! Checkpoint.root (BeaconState.currentJustifiedCheckpoint newState))) ->
  <[hashTreeRootBlock block := block]> (blocks (db c))
  !! Checkpoint.root (BeaconState.finalizedCheckpoint newState)
  = Some finalizedBlock ->
  (runST block (Some state) c).1 = Returned (Some newState)
  /\ Chain.finalizedBlock (db (runST block (Some state) c).2)
     = Some (hashTreeRootBlock block, block)
  /\ finalizedState (db (runST block (Some state) c).2)
     = Some (BeaconBlock.stateRoot finalizedBlock,
             <[BeaconBlock.stateRoot block := newState]> (states (db c))
             !! BeaconBlock.stateRoot finalizedBlock)
  /\ exists fc,
       forkChoice (runST block (Some state) c).2
       = setFinalized (hashTreeRootBlock block) fc.
Proof.
  intros Hengine. unfold newlyFinalized, Marks.newlyJustified.
  unfold runStateTransition. unfold_method. simpl. rewrite Hengine.
  split_tests; simpl; intros Hnf Hjust Hfin; try discriminate Hnf;
    unfold getState;
    repeat match goal with
           | H : getBlock _ _ = _ |- _ => unfold getBlock in H; simpl in H
           end;
    try (destruct (Hjust eq_refl) as [? ?]; congruence);
    try congruence;
    match goal with
    | H : _ !! _ = Some ?found |- _ =>
        assert (found = finalizedBlock) as -> by congruence
    end;
    repeat split; eauto.
Qed.

End ChainFacts.

(** * The concrete chain at work *)

Section DemoFacts.

Import Chain Demo.

(** Settles a decidable statement about concrete data by running its
    decision procedure. *)
Ltac decide_by_computation :=
  match goal with
  | |- ?P => apply (bool_decide_eq_true_1 P); vm_compute; reflexivity
  end.

Lemma hashBlock_collision_free (b1 b2 : BeaconBlock.t) :
  hashBlock b1 = hashBlock b2 -> b1 = b2.
Proof.
  destruct b1 as [s1 p1 r1 y1], b2 as [s2 p2 r2 y2].
  unfold hashBlock. simpl. intros Heq.
  injection Heq as Hs Hp Hr Hrest.
  apply Nat2Z.inj in Hp, Hr.
  apply app_inj_1 in Hrest as [-> Hrest]; [|done].
  apply app_inj_1 in Hrest as [-> ->]; [|done].
  by subst.
Qed.

Lemma hashBlock_not_zero (b : BeaconBlock.t) :
  hashBlock b <> BeaconBlock.parentRoot emptyBlock.
Proof. unfold hashBlock. simpl. discriminate. Qed.

Example chain0_is_initialized : isInitialized chain0 = true.
Proof. reflexivity. Qed.

Example block1_is_accepted :
  (receive block1 late chain0).1 = Returned tt
  /\ emitted chain1 = [processedBlock block1]
  /\ opPool chain1 = 1%nat.
Proof. vm_compute. done. Qed.

(** The mismatched block is accepted: its post-state has another root than
    the one it claims, yet the call returns, the block is stored, its root
    is not marked bad, no warning is logged and the post-state sits under
    the claimed root. *)
Lemma C1_counterexample_mismatch_accepted :
  exists post,
    engine config genesisState mismatched true = Returned post
    /\ bool_decide (hashState post = BeaconBlock.stateRoot mismatched) = false
    /\ (receive mismatched late chain0).1 = Returned tt
    /\ getBlock (hashBlock mismatched) (db (receive mismatched late chain0).2)
       = Some mismatched
    /\ getState (BeaconBlock.stateRoot mismatched)
         (db (receive mismatched late chain0).2) = Some post
    /\ bool_decide (hashBlock mismatched
                    ∈ badBlockRoots (db (receive mismatched late chain0).2))
       = false
    /\ warned (receive mismatched late chain0).2 = [].
Proof. eexists. vm_compute. done. Qed.



(** An attestation with no bit set is processed, not rejected. *)
Lemma C5_counterexample_no_bit_not_rejected :
  bitCount (Attestation.aggregationBits (attestationWith [false; false])) = 0%nat
  /\ (receiveAtt (attestationWith [false; false]) chain0).1 = Returned tt
  /\ emitted (receiveAtt (attestationWith [false; false]) chain0).2
     = [processedAttestation (attestationWith [false; false])].
Proof. vm_compute. done. Qed.

Lemma C5_no_bit_no_vote_but_processed_witness :
  receiveAtt (attestationWith [false; false]) chain0
  = (Returned tt,
     mkChain (latestState chain0) (forkChoice chain0) (db chain0)
       (opPool chain0)
       (emitted chain0 ++ [processedAttestation (attestationWith [false; false])])
       (warned chain0) (transitioned chain0)).
Proof.
  apply (C5_no_bit_no_vote_but_processed config committee
           (attestationWith [false; false]) chain0 genesisState);
    vm_compute; reflexivity.
Defined.

(** The second validator votes with its balance of 32.5e9 gwei, not with
    its effective balance of 32e9 gwei. *)
Lemma C6_counterexample_weight_not_effective_balance :
  Validator.effectiveBalance <$> BeaconState.validators genesisState !! 1%nat
  = Some 32000000000
  /\ forkChoice (receiveAtt (attestationWith [false; true]) chain0).2
     = forkChoice chain0 ++ [AddAttestation genesisRoot 1 (Some 32500000000)].
Proof. vm_compute. done. Qed.

Lemma C6_vote_weight_is_balance_witness :
  forkChoice (receiveAtt (attestationWith [false; true]) chain0).2
  = foldl (λ fc index,
             addAttestation
               (AttestationData.beaconBlockRoot
                  (Attestation.data (attestationWith [false; true])))
               index (BeaconState.balances genesisState !! index) fc)
          (forkChoice chain0)
          (getAttestingIndices committee config genesisState
             (Attestation.data (attestationWith [false; true]))
             (Attestation.aggregationBits (attestationWith [false; true]))).
Proof.
  apply (C6_vote_weight_is_balance config committee
           (attestationWith [false; true]) chain0 genesisState).
  vm_compute; reflexivity.
Defined.

(** The dangling block fails after its block and post-state were written
    and the fork choice was told: the call throws, the block stays in the
    store and in the fork choice, and no justified mark was written. *)
Lemma C7_counterexample_writes_survive_failure :
  (receive dangling late chain0).1 = Thrown TypeError
  /\ getBlock (hashBlock dangling) (db chain0) = None
  /\ getBlock (hashBlock dangling) (db (receive dangling late chain0).2)
     = Some dangling
  /\ is_Some (getState (BeaconBlock.stateRoot dangling)
                (db (receive dangling late chain0).2))
  /\ forkChoice (receive dangling late chain0).2
     = forkChoice chain0
       ++ [AddBlock 8 (hashBlock dangling) genesisRoot]
  /\ justifiedBlock (db (receive dangling late chain0).2)
     = justifiedBlock (db chain0)
  /\ emitted (receive dangling late chain0).2 = [].
Proof. vm_compute. repeat split; eauto. Qed.

Lemma C7_writes_by_phase_witness :
  receive refusedChild late chain0 = (Thrown AssertionError, chain0)
  /\ (db (receive refused late chain0).2
      = setBadBlockRoot (hashBlock refused) (db chain0)
      /\ forkChoice (receive refused late chain0).2 = forkChoice chain0)
  /\ (blocks (db (receive block1 late chain0).2)
      = <[hashBlock block1 := block1]> (blocks (db chain0))
      /\ states (db (receive block1 late chain0).2)
         = <[BeaconBlock.stateRoot block1
             := BeaconState.setSlot 1 genesisState]> (states (db chain0))).
Proof.
  assert (Hstate : latestState chain0 = Some genesisState)
    by (vm_compute; reflexivity).
  split; [|split].
  - destruct (C7_writes_by_phase config 0 hashBlock hashDepositData engine
                sortedDeposits refusedChild late genesisState chain0 Hstate)
      as (Hinvalid & _ & _).
    apply Hinvalid. vm_compute; reflexivity.
  - destruct (C7_writes_by_phase config 0 hashBlock hashDepositData engine
                sortedDeposits refused late genesisState chain0 Hstate)
      as (_ & Hthrown & _).
    apply (Hthrown EngineError); vm_compute; reflexivity.
  - destruct (C7_writes_by_phase config 0 hashBlock hashDepositData engine
                sortedDeposits block1 late genesisState chain0 Hstate)
      as (_ & _ & Hreturned).
    apply (Hreturned (BeaconState.setSlot 1 genesisState));
      vm_compute; reflexivity.
Defined.

(** After [block1] the fork choice has a new head; [applyForkChoiceRule]
    returns, emits nothing, and the stored head root is still the genesis
    root. *)
Lemma C8_counterexample_no_event_on_head_change :
  bool_decide (head (forkChoice chain1) = hashBlock block1) = true
  /\ getChainHeadRoot (db chain1) = Some genesisRoot
  /\ bool_decide (hashBlock block1 = genesisRoot) = false
  /\ (applyRule chain1).1 = Returned tt
  /\ emitted (applyRule chain1).2 = emitted chain1
  /\ getChainHeadRoot (db (applyRule chain1).2) = Some genesisRoot.
Proof. vm_compute. done. Qed.

Lemma C8_head_rule_witness :
  applyRule chain0 = (Returned tt, chain0)
  /\ exists root,
       applyRule chain1
       = (Returned tt,
          mkChain (latestState chain1) (forkChoice chain1)
            (setChainHeadRoots root (BeaconBlock.stateRoot block1) block1
               (db chain1))
            (opPool chain1) (emitted chain1) (warned chain1)
            (transitioned chain1)).
Proof.
  split.
  - apply (C8_head_rule chain0 genesisRoot); vm_compute; reflexivity.
  - assert (Hhead : getChainHeadRoot (db chain1) = Some genesisRoot)
      by (vm_compute; reflexivity).
    destruct (C8_head_rule chain1 genesisRoot Hhead) as [_ Hdiffers].
    apply Hdiffers.
    + intros Hsame. vm_compute in Hsame. discriminate Hsame.
    + vm_compute; reflexivity.
Defined.

End DemoFacts.

(** * Further properties of the rewards and penalties step *)

Section MoreEpochFacts.

Import Epoch.

Context (GENESIS_EPOCH : Z) {ForkSeq : Type} `{EqDecision ForkSeq}.
Context (phase0 : ForkSeq) (getForkSeq : Z -> ForkSeq).
Context (getAttestationDeltas getRewardsAndPenaltiesAltair :
           CachedBeaconStateAllForks -> EpochTransitionCache ->
           list Number.t * list Number.t).

(** The loop reads the slashing penalties only through
    [slashingPenalties[i] ?? 0]. *)
Lemma loopFrom_slashing_ext (rewards penalties sp sp' : list Number.t) (n : nat) :
  (forall i : nat,
      default (Number.Finite 0) (sp !! i) = default (Number.Finite 0) (sp' !! i)) ->
  forall (i : nat) (bs : list Number.t),
    loopFrom rewards penalties sp i n bs = loopFrom rewards penalties sp' i n bs.
Proof.
  intros Hsame. induction n as [|n IH]; intros i bs; [done|].
  simpl. unfold loopBody. rewrite (Hsame i). apply IH.
Qed.

Lemma default_lookup_app_zeros (sp : list Number.t) (k i : nat) :
  default (Number.Finite 0) ((sp ++ replicate k (Number.Finite 0)) !! i)
  = default (Number.Finite 0) (sp !! i).
Proof.
  destruct (decide (i < length sp)%nat) as [Hin|Hout].
  - by rewrite lookup_app_l.
  - rewrite lookup_app_r by lia.
    rewrite (lookup_ge_None_2 sp i) by lia. simpl.
    destruct (replicate k (Number.Finite 0) !! (i - length sp)%nat)
      as [z|] eqn:Hz; [|done].
    apply lookup_replicate in Hz as [-> _]. done.
Qed.

(** X18.  A slashing penalty that is missing counts as zero: padding
    [slashingPenalties] with zeros, to any length, changes nothing of what
    [processRewardsAndPenalties] does.  The default argument [[]] is
    thus an array of zeros. *)
Theorem missing_slashing_penalty_is_zero
    (state : CachedBeaconStateAllForks) (cache : EpochTransitionCache)
    (slashingPenalties : list Number.t) (k : nat) :
  processRewardsAndPenalties GENESIS_EPOCH phase0 getForkSeq
    getAttestationDeltas getRewardsAndPenaltiesAltair
    state cache (slashingPenalties ++ replicate k (Number.Finite 0))
  = processRewardsAndPenalties GENESIS_EPOCH phase0 getForkSeq
      getAttestationDeltas getRewardsAndPenaltiesAltair
      state cache slashingPenalties.
Proof.
  unfold processRewardsAndPenalties.
  destruct (decide (currentEpoch cache = GENESIS_EPOCH)); [done|].
  destruct (getRewardsAndPenalties phase0 getForkSeq getAttestationDeltas
              getRewardsAndPenaltiesAltair state cache) as [rewards penalties].
  by rewrite (loopFrom_slashing_ext rewards penalties
                (slashingPenalties ++ replicate k (Number.Finite 0))
                slashingPenalties
                (length rewards) (default_lookup_app_zeros slashingPenalties k)).
Qed.

(** X19.  The loop runs over [rewards.length]: when fewer rewards than balances
    come back, the balances from index [rewards.length] on are kept as they
    were, and the number of balances does not change. *)
Theorem balances_beyond_rewards_are_kept
    (state : CachedBeaconStateAllForks) (cache : EpochTransitionCache)
    (slashingPenalties rewards penalties : list Number.t) :
  currentEpoch cache <> GENESIS_EPOCH ->
  getRewardsAndPenalties phase0 getForkSeq getAttestationDeltas
    getRewardsAndPenaltiesAltair state cache = (rewards, penalties) ->
  (length rewards <= length (balances state))%nat ->
  exists balances',
    processRewardsAndPenalties GENESIS_EPOCH phase0 getForkSeq
      getAttestationDeltas getRewardsAndPenaltiesAltair
      state cache slashingPenalties
    = (mkState (slot state) balances',
       mkCache (currentEpoch cache) (Some balances'),
       [ReadAll; Rebuild balances'])
    /\ length balances' = length (balances state)
    /\ (forall i : nat,
          (length rewards <= i)%nat ->
          balances' !! i = balances state !! i).
Proof.
  intros Hepoch Hdeltas Hlr.
  destruct (loopFrom_spec rewards penalties slashingPenalties
              (length rewards) 0 (balances state))
    as (Hlen & Hout & _); [lia|].
  eexists. unfold processRewardsAndPenalties.
  destruct (decide (currentEpoch cache = GENESIS_EPOCH)) as [Heq|_]; [done|].
  rewrite Hdeltas. cbv zeta.
  split; [reflexivity|]. split; [lia|].
  intros i Hi. apply Hout. lia.
Qed.

End MoreEpochFacts.

(** * Further properties of the attestation factory *)

Section MoreAttestationFactoryFacts.

Import AttestationFactory.

Context {BeaconDB Shard : Type}.
Context (assembleAttestationData :
           IBeaconConfig -> BeaconDB -> BeaconState.t -> BeaconBlock.t ->
           Shard -> Outcome Error AttestationData.t).

(** The state a call leaves, for slots between [-2^53] and [2^53]. *)
Lemma assembleAttestation_state (fuel : nat) (config : IBeaconConfig)
    (db : BeaconDB) (state : BeaconState.t) (headBlock : BeaconBlock.t)
    (slot : Z) (shard : Shard) :
  - 2 ^ 53 <= BeaconState.slot state -> slot <= 2 ^ 53 ->
  slot - BeaconState.slot state <= Z.of_nat fuel ->
  snd <$> assembleAttestation assembleAttestationData fuel config db state
            headBlock slot shard
  = Some (BeaconState.setSlot (Z.max (BeaconState.slot state) slot) state).
Proof.
  intros Hlow Hhigh Hfuel. unfold assembleAttestation.
  rewrite advanceSlot_max by done. simpl.
  by destruct (assembleAttestationData _ _ _ _ _).
Qed.

(** X20.  For slots between [-2^53] and [2^53] and fuel for the longer of the
    two loops: [assembleAttestation] comes back and never moves
    [state.slot] back; it leaves the state as it was when the slot asked
    for is not ahead of it; and a second call comes back too and leaves the
    state where one call for the later of the two slots leaves it, whatever
    the head blocks and shards. *)
Theorem assembleAttestation_composes (config : IBeaconConfig) (db : BeaconDB)
    (state : BeaconState.t) (headBlock headBlock' : BeaconBlock.t)
    (slot slot' : Z) (shard shard' : Shard) (fuel : nat) :
  - 2 ^ 53 <= BeaconState.slot state ->
  slot <= 2 ^ 53 -> slot' <= 2 ^ 53 ->
  Z.max slot slot' - BeaconState.slot state <= Z.of_nat fuel ->
  exists outcome state1,
    assembleAttestation assembleAttestationData fuel config db state headBlock
      slot shard
    = Some (outcome, state1)
    /\ BeaconState.slot state <= BeaconState.slot state1
    /\ (slot <= BeaconState.slot state -> state1 = state)
    /\ (exists outcome' state2,
          assembleAttestation assembleAttestationData fuel config db state1
            headBlock' slot' shard'
          = Some (outcome', state2)
          /\ snd <$> assembleAttestation assembleAttestationData fuel config
                       db state headBlock (Z.max slot slot') shard
             = Some state2).
Proof.
  intros Hlow Hhigh Hhigh' Hfuel.
  pose proof (assembleAttestation_state fuel config db state headBlock slot
                shard Hlow Hhigh ltac:(lia)) as Hfirst.
  destruct (assembleAttestation assembleAttestationData fuel config db state
              headBlock slot shard) as [[outcome state1]|]; [|done].
  injection Hfirst as ->.
  eexists _, _. split; [reflexivity|]. split; [simpl; lia|]. split.
  { intros Hbehind. rewrite Z.max_l by lia. apply setSlot_same. }
  pose proof (assembleAttestation_state fuel config db
                (BeaconState.setSlot (Z.max (BeaconState.slot state) slot) state)
                headBlock' slot' shard' ltac:(simpl; lia) Hhigh'
                ltac:(simpl; lia)) as Hsecond.
  destruct (assembleAttestation assembleAttestationData fuel config db
              (BeaconState.setSlot (Z.max (BeaconState.slot state) slot) state)
              headBlock' slot' shard') as [[outcome' state2]|]; [|done].
  injection Hsecond as ->.
  eexists _, _. split; [reflexivity|].
  rewrite assembleAttestation_state by lia.
  rewrite setSlot_setSlot. simpl. do 2 f_equal. lia.
Qed.

End MoreAttestationFactoryFacts.

(** * Properties of the dev network *)

Section DevNetworkFacts.

Import DevNetwork.

Context {PresetName ChainConfig : Type} `{EqDecision PresetName}.
Context (mainnet minimal gnosis praseody : PresetName).
Context (mainnetChainConfig minimalChainConfig : ChainConfig).
Context (gnosisChainConfig praseodyChainConfig : ChainConfig).

(** X21.  The dev network has a chain config exactly for the presets mainnet,
    minimal, gnosis and praseody; for any other preset loading the module
    throws, and the error names the preset. *)
Theorem dev_chainConfig_supported_presets (ACTIVE_PRESET : PresetName) :
  (isThrown (chainConfig mainnet minimal gnosis praseody mainnetChainConfig
               minimalChainConfig gnosisChainConfig praseodyChainConfig
               ACTIVE_PRESET) = false
   <-> ACTIVE_PRESET ∈ [mainnet; minimal; gnosis; praseody])
  /\ (forall e,
        chainConfig mainnet minimal gnosis praseody mainnetChainConfig
          minimalChainConfig gnosisChainConfig praseodyChainConfig
          ACTIVE_PRESET = Thrown e ->
        e = PresetNotSupported ACTIVE_PRESET).
Proof.
  unfold chainConfig.
  repeat case_decide; simpl; (split; [split|]);
    try done; try (intros _; set_solver); try congruence.
  intros Hin. exfalso.
  repeat (apply elem_of_cons in Hin as [Hin|Hin]; [done|]).
  by apply elem_of_nil in Hin.
Qed.

End DevNetworkFacts.

(** * Properties of the life cycle *)

Section LifecycleFacts.

Import Chain Lifecycle.

Context {FC OP : Type} `{!LMDGHOST FC}.
Context (config : IBeaconConfig).
Context (hashTreeRootBlock : BeaconBlock.t -> Root).
Context (hashTreeRootState : BeaconState.t -> Root).
Context (hashTreeRootDepositData : list Z -> Root).
Context (getEmptyBlock : BeaconBlock.t).
Context (getAllDeposits : OP -> list Deposit.t).
Context (bufferFromHex : string -> Root).
Context (initializeBeaconStateFromEth1 :
           IBeaconConfig -> Root -> Z -> list Deposit.t -> list (Z * list Z) ->
           BeaconState.t).
Context (isValidGenesisState : IBeaconConfig -> BeaconState.t -> bool).

Abbreviation initialize :=
  (initializeBeaconChain (FC:=FC) (OP:=OP) hashTreeRootBlock hashTreeRootState
     getEmptyBlock).
Abbreviation checkGen :=
  (checkGenesis (FC:=FC) (OP:=OP) config hashTreeRootBlock hashTreeRootState
     hashTreeRootDepositData getEmptyBlock getAllDeposits bufferFromHex
     initializeBeaconStateFromEth1 isValidGenesisState).
Abbreviation calls :=
  (callAll (FC:=FC) (OP:=OP) config hashTreeRootBlock hashTreeRootState
     hashTreeRootDepositData getEmptyBlock getAllDeposits bufferFromHex
     initializeBeaconStateFromEth1 isValidGenesisState).

(** The chain object after [initializeBeaconChain], field by field. *)
Lemma initializeBeaconChain_run (genesisState : BeaconState.t)
    (merkleTree : list (Z * list Z)) (c : BeaconChain FC OP) :
  let stateRoot := hashTreeRootState genesisState in
  let genesisBlock :=
    genesisBlockOf hashTreeRootState getEmptyBlock genesisState in
  let blockRoot := hashTreeRootBlock genesisBlock in
  initialize genesisState merkleTree c
  = (Returned tt,
     mkChain (Some genesisState)
       (setFinalized blockRoot
          (setJustified blockRoot
             (addBlock (BeaconBlock.slot genesisBlock) blockRoot ZERO_ROOT
                (forkChoice c))))
       (mkDb (<[blockRoot := genesisBlock]> (blocks (db c)))
             (<[stateRoot := genesisState]> (states (db c)))
             (badBlockRoots (db c))
             (Some (blockRoot, stateRoot, genesisBlock))
             (Some stateRoot)
             (Some (blockRoot, genesisBlock))
             (Some (blockRoot, genesisBlock))
             (Some (stateRoot, Some genesisState))
             (Some (stateRoot, Some genesisState))
             (<[BeaconState.eth1DepositIndex genesisState := merkleTree]>
                (merkleTrees (db c)))
             (deposits (db c)))
       (opPool c) (emitted c) (warned c) (transitioned c)).
Proof. reflexivity. Qed.

(** The latest state after [initializeBeaconChain], in memory and as the
    store gives it back. *)
Lemma initializeBeaconChain_latest (genesisState : BeaconState.t)
    (merkleTree : list (Z * list Z)) (c : BeaconChain FC OP) :
  latestState (initialize genesisState merkleTree c).2 = Some genesisState
  /\ getLatestState (db (initialize genesisState merkleTree c).2)
     = Some genesisState.
Proof.
  rewrite initializeBeaconChain_run. cbn [snd db latestState].
  unfold getLatestState, getState.
  cbn [latestStateRoot states mbind option_bind].
  split; [done|]. by rewrite lookup_insert_eq.
Qed.

(** X13.  After [initializeBeaconChain], on whatever chain object, the marks
    resolve to the genesis state: the head root leads to the genesis block,
    the state root of that block leads to the genesis state, which is also
    the latest state in memory and in the store; the justified and
    finalized marks name the same block and state; the deposit tree sits
    under the deposit index of the state.  Blocks under other roots and the
    bad-block set are as before. *)
Theorem initializeBeaconChain_marks_resolve (genesisState : BeaconState.t)
    (merkleTree : list (Z * list Z)) (c : BeaconChain FC OP) :
  let c' := (initialize genesisState merkleTree c).2 in
  let genesisBlock :=
    genesisBlockOf hashTreeRootState getEmptyBlock genesisState in
  latestState c' = Some genesisState
  /\ getLatestState (db c') = Some genesisState
  /\ (exists blockRoot,
        getChainHeadRoot (db c') = Some blockRoot
        /\ getBlock blockRoot (db c') = Some genesisBlock
        /\ justifiedBlock (db c') = Some (blockRoot, genesisBlock)
        /\ finalizedBlock (db c') = Some (blockRoot, genesisBlock)
        /\ (forall r, r <> blockRoot ->
              getBlock r (db c') = getBlock r (db c)))
  /\ getState (BeaconBlock.stateRoot genesisBlock) (db c') = Some genesisState
  /\ justifiedState (db c')
     = Some (BeaconBlock.stateRoot genesisBlock, Some genesisState)
  /\ finalizedState (db c')
     = Some (BeaconBlock.stateRoot genesisBlock, Some genesisState)
  /\ merkleTrees (db c') !! BeaconState.eth1DepositIndex genesisState
     = Some merkleTree
  /\ badBlockRoots (db c') = badBlockRoots (db c).
Proof.
  intros c' genesisBlock. subst c'.
  rewrite initializeBeaconChain_run. cbn [snd db latestState].
  unfold getLatestState, getChainHeadRoot, getBlock, getState.
  cbn [latestStateRoot states blocks chainHead justifiedBlock finalizedBlock
       justifiedState finalizedState merkleTrees badBlockRoots fmap
       option_fmap option_map mbind option_bind fst].
  split; [done|]. split; [by rewrite lookup_insert_eq|]. split.
  { eexists. split; [reflexivity|]. split; [by rewrite lookup_insert_eq|].
    split; [done|]. split; [done|].
    intros r Hr. by rewrite lookup_insert_ne. }
  split; [by rewrite lookup_insert_eq|]. split; [done|]. split; [done|].
  split; [by rewrite lookup_insert_eq|]. done.
Qed.

Lemma assignLatestState_db (state : option BeaconState.t)
    (c : BeaconChain FC OP) :
  db (assignLatestState state c) = db c.
Proof. reflexivity. Qed.

Lemma assignLatestState_back (state state' : option BeaconState.t)
    (c : BeaconChain FC OP) :
  latestState c = state ->
  assignLatestState state (assignLatestState state' c) = c.
Proof. destruct c. simpl. by intros ->. Qed.

(** X17.  Restarting finds the chain again: with the latest state in memory
    forgotten, [start] over the store that [initializeBeaconChain] left
    loads the genesis state back and registers no listener. *)
Theorem start_after_genesis_restores (genesisState : BeaconState.t)
    (merkleTree : list (Z * list Z)) (c : BeaconChain FC OP)
    (ls : list nat) (k : nat) (logged : list Info) :
  start (mkNode (assignLatestState None (initialize genesisState merkleTree c).2)
           ls k logged)
  = mkNode (initialize genesisState merkleTree c).2 ls k logged.
Proof.
  destruct (initializeBeaconChain_latest genesisState merkleTree c)
    as [Hls Hlatest].
  unfold start. cbn [chain].
  rewrite assignLatestState_db, Hlatest. cbn [chain listeners created infos].
  by rewrite (assignLatestState_back _ _ _ Hls).
Qed.

(** [start] and [stop] do not touch the store. *)
Lemma start_db (n : Node FC OP) : db (chain (start n)) = db (chain n).
Proof. unfold start. by destruct (getLatestState (db (chain n))). Qed.

(** X15.  Every [start] over a store without a latest state registers one more
    listener: [k] calls in a row leave [k] listeners more, each a function
    object of its own, and the latest state stays unset. *)
Theorem start_registers_every_time (k : nat) (n : Node FC OP) :
  getLatestState (db (chain n)) = None ->
  listeners (calls (replicate k Start) n)
  = listeners n ++ seq (created n) k
  /\ ((0 < k)%nat ->
      latestState (chain (calls (replicate k Start) n)) = None).
Proof.
  intros Hnone.
  assert (Hall : forall k (n : Node FC OP),
             getLatestState (db (chain n)) = None ->
             listeners (calls (replicate k Start) n)
             = listeners n ++ seq (created n) k
             /\ created (calls (replicate k Start) n) = (created n + k)%nat
             /\ db (chain (calls (replicate k Start) n)) = db (chain n)
             /\ ((0 < k)%nat ->
                 latestState (chain (calls (replicate k Start) n)) = None)).
  { clear k n Hnone. induction k as [|k IH]; intros n Hnone.
    - simpl. rewrite app_nil_r. repeat split; [lia|lia].
    - rewrite replicate_S_end. unfold callAll. rewrite foldl_app.
      fold (calls (replicate k Start) n).
      destruct (IH n Hnone) as (Hls & Hcr & Hdb & _).
      cbn [foldl call]. unfold start. rewrite Hdb, Hnone.
      cbn [listeners created chain]. rewrite Hls, Hcr.
      split; [by rewrite seq_S, app_assoc|].
      split; [lia|]. split; [done|]. done. }
  destruct (Hall k n Hnone) as (Hls & _ & _ & Hunset). by split.
Qed.

Lemma removeFirst_absent (f : nat) (ls : list nat) :
  Forall (λ g, g <> f) ls -> removeFirst f ls = ls.
Proof.
  induction 1 as [|g ls Hg _ IH]; [done|].
  simpl. destruct (decide (g = f)); [done|]. by rewrite IH.
Qed.

(** Removing a function object that was never registered removes
    nothing. *)
Lemma removeListener_absent (f : nat) (ls : list nat) :
  Forall (λ g, g <> f) ls -> removeListener f ls = ls.
Proof.
  intros Habsent. unfold removeListener.
  rewrite removeFirst_absent; [apply reverse_involutive|].
  by apply Forall_reverse.
Qed.

(** Every registered listener was made by an earlier [bind]. *)
Lemma listeners_made_earlier (ks : list Call) (c : BeaconChain FC OP) :
  Forall (λ g, (g < created (calls ks (newNode c)))%nat)
         (listeners (calls ks (newNode c))).
Proof.
  induction ks as [|k ks IH] using rev_ind; [by constructor|].
  unfold callAll. rewrite foldl_app. fold (calls ks (newNode c)).
  set (n := calls ks (newNode c)) in *. cbn [foldl].
  destruct k as [| |eth1Block]; simpl.
  - unfold start. destruct (getLatestState (db (chain n))); simpl; [done|].
    apply Forall_app. split.
    + eapply Forall_impl; [exact IH|]. simpl. lia.
    + repeat constructor.
  - rewrite removeListener_absent.
    + eapply Forall_impl; [exact IH|]. simpl. lia.
    + eapply Forall_impl; [exact IH|]. simpl. lia.
  - unfold checkGenesis. by destruct (negb _).
Qed.

(** X16.  [stop] removes no listener.  The function it hands to
    [removeListener] is a fresh [checkGenesis.bind(this)], which is none of
    the functions [start] registered: after any calls on a new node, the
    listeners after [stop] are the listeners before it. *)
Theorem stop_removes_no_listener (ks : list Call) (c : BeaconChain FC OP) :
  listeners (stop (calls ks (newNode c))) = listeners (calls ks (newNode c)).
Proof.
  unfold stop. cbn [listeners]. apply removeListener_absent.
  eapply Forall_impl; [apply listeners_made_earlier|]. simpl. lia.
Qed.

(** X14.  [checkGenesis] does not look at whether the chain is initialized.  When
    the eth1 block does not form a valid genesis state, the chain object
    and the listeners are as before.  When it does, the chain is
    initialized with that state, also over a chain that was initialized
    before: the latest state and the head are those of the new genesis,
    and the listeners stay registered. *)
Theorem checkGenesis_initializes_again (eth1Block : Eth1Block.t)
    (n : Node FC OP) :
  let deposits := getAllDeposits (opPool (chain n)) in
  let genesisState :=
    initializeBeaconStateFromEth1 config
      (bufferFromHex (Eth1Block.hash eth1Block))
      (Eth1Block.timestamp eth1Block) deposits
      (genesisMerkleTree hashTreeRootDepositData deposits) in
  (isValidGenesisState config genesisState = false ->
   chain (checkGen eth1Block n) = chain n
   /\ listeners (checkGen eth1Block n) = listeners n)
  /\ (isValidGenesisState config genesisState = true ->
      latestState (chain (checkGen eth1Block n)) = Some genesisState
      /\ getChainHeadRoot (db (chain (checkGen eth1Block n)))
         = Some (hashTreeRootBlock
                   (genesisBlockOf hashTreeRootState getEmptyBlock genesisState))
      /\ getLatestState (db (chain (checkGen eth1Block n))) = Some genesisState
      /\ listeners (checkGen eth1Block n) = listeners n).
Proof.
  intros deposits genesisState. unfold checkGenesis.
  fold deposits. fold genesisState. split.
  - intros ->. done.
  - intros ->. cbn [negb chain listeners].
    destruct (initializeBeaconChain_latest genesisState
                (genesisMerkleTree hashTreeRootDepositData deposits) (chain n))
      as [Hls Hlatest].
    split; [exact Hls|]. split; [|split; [exact Hlatest|done]].
    by rewrite initializeBeaconChain_run.
Qed.

End LifecycleFacts.

(** * The concrete chain at work, continued *)

Section MoreDemoFacts.

Import Chain Lifecycle Demo.

Ltac by_computation :=
  match goal with
  | |- ?P => apply (bool_decide_eq_true_1 P); vm_compute; reflexivity
  end.

(** A node is started on an empty store, genesis is found, the node is
    stopped, and a later eth1 block forms a genesis again: the listener of
    [start] is still there after [stop], and the second genesis replaces
    the first. *)
Example genesis_twice :
  listeners (lifeCalls [Start; CheckGenesis earlyEth1Block] node0) = [0%nat]
  /\ isInitialized (chain (lifeCalls [Start; CheckGenesis earlyEth1Block] node0))
     = false
  /\ (BeaconState.genesisTime
        <$> latestState
              (chain (lifeCalls [Start; CheckGenesis genesisEth1Block] node0)))
     = Some 2000
  /\ listeners (lifeCalls [Start; CheckGenesis genesisEth1Block; Stop] node0)
     = [0%nat]
  /\ (BeaconState.genesisTime
        <$> latestState
              (chain (lifeCalls [Start; CheckGenesis genesisEth1Block; Stop;
                                 CheckGenesis laterEth1Block] node0)))
     = Some 3000.
Proof. vm_compute. done. Qed.

Lemma receiveBlock_before_initialization_witness :
  receive block1 late (newChain [] 0%nat)
  = (Thrown AssertionError, newChain [] 0%nat)
  /\ receive block1 late forgetful = (Thrown TypeError, forgetful).
Proof.
  split.
  - rewrite (receiveBlock_before_initialization config 0 hashBlock
               hashDepositData engine sortedDeposits block1 late
               (newChain [] 0%nat) eq_refl).
    f_equal.
  - rewrite (receiveBlock_before_initialization config 0 hashBlock
               hashDepositData engine sortedDeposits block1 late
               forgetful eq_refl).
    f_equal.
Defined.

Lemma receiveBlock_announces_bad_block_witness :
  receive refused late chain0
  = (Returned tt,
     mkChain (latestState chain0) (forkChoice chain0)
       (setBadBlockRoot (hashBlock refused) (db chain0)) 1%nat
       (emitted chain0 ++ [processedBlock refused])
       (warned chain0 ++ [hashBlock refused])
       (transitioned chain0 ++ [refused])).
Proof.
  apply (receiveBlock_announces_bad_block config 0 hashBlock hashDepositData
           engine sortedDeposits refused late genesisState EngineError 1%nat
           chain0); vm_compute; reflexivity.
Defined.

Lemma finalized_marks_name_incoming_block_witness :
  (transition blockA (Some genesisState) chainXY).1 = Returned (Some postA)
  /\ finalizedBlock (db (transition blockA (Some genesisState) chainXY).2)
     = Some (hashBlock blockA, blockA)
  /\ finalizedState (db (transition blockA (Some genesisState) chainXY).2)
     = Some (BeaconBlock.stateRoot blockX,
             <[BeaconBlock.stateRoot blockA := postA]> (states (db chainXY))
             !! BeaconBlock.stateRoot blockX)
  /\ exists fc,
       forkChoice (transition blockA (Some genesisState) chainXY).2
       = setFinalized (hashBlock blockA) fc.
Proof.
  apply (finalized_marks_name_incoming_block config hashBlock hashDepositData
           engine sortedDeposits blockA blockX genesisState postA chainXY).
  - vm_compute; reflexivity.
  - vm_compute; reflexivity.
  - intros _. by_computation.
  - vm_compute; reflexivity.
Defined.

Lemma genesis_run_store_is_parent_closed_witness :
  hashBlock block1 = hashBlock block1
  /\ (block1 = genesisBlockOf hashState emptyBlock genesisState
      \/ (isThrown (engine config genesisState block1 true) = false
          /\ is_Some
               (blocks (db (requests [ReceiveBlock block1 late] chain0))
                !! BeaconBlock.parentRoot block1))).
Proof.
  apply (genesis_run_store_is_parent_closed config 0 hashBlock hashState
           hashDepositData engine committee sortedDeposits emptyBlock
           genesisState [] 0%nat [] [ReceiveBlock block1 late]
           (hashBlock block1) block1).
  vm_compute; reflexivity.
Defined.

Lemma genesis_run_bad_roots_not_stored_witness :
  getBlock (hashBlock refused)
    (db (requests [ReceiveBlock refused late] chain0))
  = None.
Proof.
  apply (genesis_run_bad_roots_not_stored config 0 hashBlock hashState
           hashDepositData engine committee sortedDeposits emptyBlock
           hashBlock_collision_free hashBlock_not_zero genesisState
           [] 0%nat [] [ReceiveBlock refused late] (hashBlock refused)).
  by_computation.
Defined.

Lemma balances_beyond_rewards_are_kept_witness :
  exists balances',
    shortRewardsStep epochState (Epoch.mkCache 2 None) []
    = (Epoch.mkState 16 balances',
       Epoch.mkCache 2 (Some balances'),
       [Epoch.ReadAll; Epoch.Rebuild balances'])
    /\ length balances' = 3%nat
    /\ (forall i : nat,
          (2 <= i)%nat -> balances' !! i = gwei [10; 0; 5] !! i).
Proof.
  apply (balances_beyond_rewards_are_kept 0 Phase0 forkAt
           shortDeltas altairDeltas epochState
           (Epoch.mkCache 2 None) [] (gwei [1; 2]) (gwei [20; 1])).
  - simpl. lia.
  - reflexivity.
  - simpl. lia.
Defined.

Lemma assembleAttestation_composes_witness :
  exists outcome state1,
    AttestationFactory.assembleAttestation dataFor 9 config tt genesisState
      genesisBlock 5 0
    = Some (outcome, state1)
    /\ BeaconState.slot genesisState <= BeaconState.slot state1
    /\ (5 <= BeaconState.slot genesisState -> state1 = genesisState)
    /\ (exists outcome' state2,
          AttestationFactory.assembleAttestation dataFor 9 config tt state1
            block1 9 1
          = Some (outcome', state2)
          /\ snd <$> AttestationFactory.assembleAttestation dataFor 9 config
                       tt genesisState genesisBlock (Z.max 5 9) 0
             = Some state2).
Proof.
  apply (assembleAttestation_composes dataFor config tt genesisState
           genesisBlock block1 5 9 0 1 9); simpl; lia.
Defined.

Lemma start_registers_every_time_witness :
  listeners (lifeCalls (replicate 3 Start) node0) = [] ++ seq 0 3
  /\ ((0 < 3)%nat ->
      latestState (chain (lifeCalls (replicate 3 Start) node0)) = None).
Proof.
  apply (start_registers_every_time config hashBlock hashState
           hashDepositData emptyBlock pooledDeposits fromHex stateFromEth1
           validGenesis 3 node0).
  vm_compute; reflexivity.
Defined.

(** The dev network on concrete presets. *)
Example dev_presets :
  DevNetwork.chainConfig PresetMainnet PresetMinimal PresetGnosis
    PresetPraseody 1 2 3 4 PresetPraseody = Returned 4
  /\ DevNetwork.chainConfig PresetMainnet PresetMinimal PresetGnosis
       PresetPraseody 1 2 3 4 PresetOther
     = Thrown (DevNetwork.PresetNotSupported PresetOther).
Proof. split; reflexivity. Qed.

End MoreDemoFacts.
